(** * Fitness training app: workout ledger, countdown timer and session engine

    A shallow embedding of [fitness_app.py] (classes [DataManager],
    [ExerciseTimer] and the workout methods of [FitnessApp]) together with
    the properties its specification states about streaks, weekly
    statistics, the countdown timer, the exercise form and a workout run.

    Conventions of the embedding.
    - Python [int] is [Z].  Python [float] is idealised as an exact
      rational ([Qc], canonical fractions, so that equality is Leibniz
      equality); [round(x, 1)] is rounding to the nearest tenth, ties to
      the even tenth.
    - A calendar date (the string produced by [strftime("%Y-%m-%d")]) is
      represented by its proleptic Gregorian ordinal, the number
      [date.toordinal()] gives it; [ymd2ord] computes it from year, month
      and day.  A [datetime] is a count of microseconds on the same axis.
    - [datetime.now()] is an input: every operation that reads the clock
      takes its readings as arguments, one for each read.
    - A text of the exercise form is a string, the bytes of its UTF-8
      encoding; [float] of a text is a rational, or [NotFinite] for an
      infinity and for not-a-number, which no document here holds.
    - [save_data] and the widget calls have no effect on the state the
      properties are about; the texts [exercise_status_label] goes through
      during a workout are kept in a log (the clock shown in [timer_label]
      and the message boxes are not), and the [after] queue of the event
      loop is a list of tasks. *)

From Stdlib Require Import ZArith QArith Qcanon Lia Ascii String.
From stdpp Require Import gmap strings list.

Local Open Scope Z_scope.

(** ** Numbers *)

Definition Z2Qc (z : Z) : Qc := Q2Qc (inject_Z z).

(** Nearest integer to a fraction, a tie going to the even neighbour. *)
Definition round_half_even (q : Q) : Z :=
  let n := Qnum q in
  let d := Zpos (Qden q) in
  let fl := n / d in
  let r := n mod d in
  if 2 * r <? d then fl
  else if d <? 2 * r then fl + 1
  else if Z.even fl then fl else fl + 1.

(** [round(x, 1)]. *)
Definition round1 (x : Qc) : Qc :=
  Q2Qc (round_half_even (this x * (10 # 1)) # 10).

(** ** Dates and instants *)

Module Calendar.

Definition us_per_second : Z := 1000000.
Definition us_per_day : Z := 86400 * us_per_second.

Definition is_leap (year : Z) : bool :=
  (year mod 4 =? 0) && (negb (year mod 100 =? 0) || (year mod 400 =? 0)).

Definition days_before_year (year : Z) : Z :=
  let y := year - 1 in y * 365 + y / 4 - y / 100 + y / 400.

Definition days_before_month (year month : Z) : Z :=
  nth (Z.to_nat month) [0; 0; 31; 59; 90; 120; 151; 181; 212; 243; 273; 304; 334] 0
  + (if (2 <? month) && is_leap year then 1 else 0).

(** The ordinal of a calendar day; 0001-01-01 is day 1. *)
Definition ymd2ord (year month day : Z) : Z :=
  days_before_year year + days_before_month year month + day.

(** [strftime("%Y-%m-%d")] of an instant: the day it falls on. *)
Definition strftime_ymd (t : Z) : Z := t / us_per_day.

(** [strptime(s, "%Y-%m-%d")]: midnight at the start of the day. *)
Definition strptime_ymd (day : Z) : Z := day * us_per_day.

(** [date.weekday()]: Monday is 0, Sunday is 6. *)
Definition weekday_of_day (day : Z) : Z := (day + 6) mod 7.

(** [datetime.weekday()]. *)
Definition weekday (t : Z) : Z := weekday_of_day (strftime_ymd t).

(** [timedelta.days] and [timedelta.seconds] of a difference of
    instants; a [timedelta] is normalised so that the seconds are in
    [0, 86400). *)
Definition td_days (delta : Z) : Z := delta / us_per_day.
Definition td_seconds (delta : Z) : Z := (delta mod us_per_day) / us_per_second.

(** [t.replace(hour=0, minute=0, second=0, microsecond=0)]. *)
Definition replace_midnight (t : Z) : Z := (t / us_per_day) * us_per_day.

(** [timedelta(days=n)]. *)
Definition timedelta_days (n : Z) : Z := n * us_per_day.

End Calendar.

(** ** The persisted document *)

Record Exercise := {
  category : string;
  calories_per_rep : Qc;
  icon : string
}.

Record ExerciseStep := {
  name : string;
  sets : Z;
  reps : Z;
  rest : Z
}.

Record Workout := {
  exercises : list ExerciseStep;
  description : string
}.

Record HistoryEntry := {
  date : Z;
  timestamp : Z;
  workout_name : string;
  exercises_done : list ExerciseStep;
  duration_minutes : Z;
  calories_burned : Qc
}.

Record Goals := {
  weekly_workouts : Z;
  daily_calories : Z
}.

Record UserStats := {
  total_workouts : Z;
  total_calories : Qc;
  total_time_minutes : Z;
  streak : Z;
  best_streak : Z;
  last_workout_date : option Z
}.

Record Data := {
  data_exercises : gmap string Exercise;
  data_workouts : gmap string Workout;
  history : list HistoryEntry;
  goals : Goals;
  user_stats : UserStats
}.

Record WeeklyStats := {
  week_workouts : Z;
  week_calories : Qc;
  week_minutes : Z;
  daily_breakdown : gmap Z Z;
  goal_progress : Qc
}.

(** ** DataManager *)

Module DataManager.
Import Calendar.

Definition default_stats : UserStats :=
  {| total_workouts := 0; total_calories := 0%Qc; total_time_minutes := 0;
     streak := 0; best_streak := 0; last_workout_date := None |}.

Definition default_goals : Goals :=
  {| weekly_workouts := 3; daily_calories := 300 |}.

(** The document [load_data] returns when no file exists, for a given
    seed catalog. *)
Definition default_data (exs : gmap string Exercise)
    (wks : gmap string Workout) : Data :=
  {| data_exercises := exs; data_workouts := wks; history := [];
     goals := default_goals; user_stats := default_stats |}.

(** The streak branch of [add_workout_to_history]. *)
Definition update_streak (today : Z) (stats : UserStats) : Z :=
  match last_workout_date stats with
  | Some last =>
      let last_date := strptime_ymd last in
      let today_date := strptime_ymd today in
      let diff := td_days (today_date - last_date) in
      if diff =? 1 then streak stats + 1
      else if 1 <? diff then 1
      else streak stats
  | None => 1
  end.

(** [add_workout_to_history]; [now] and [now'] are the two readings of
    the clock, the first for the date, the second for the timestamp. *)
Definition add_workout_to_history (now now' : Z) (wname : string)
    (exercises_completed : list ExerciseStep) (minutes : Z)
    (calories : Qc) (d : Data) : Data :=
  let today := strftime_ymd now in
  let entry :=
    {| date := today; timestamp := now'; workout_name := wname;
       exercises_done := exercises_completed;
       duration_minutes := minutes;
       calories_burned := round1 calories |} in
  let stats := user_stats d in
  let new_streak := update_streak today stats in
  {| data_exercises := data_exercises d;
     data_workouts := data_workouts d;
     history := history d ++ [entry];
     goals := goals d;
     user_stats :=
       {| total_workouts := total_workouts stats + 1;
          total_calories := (total_calories stats + calories)%Qc;
          total_time_minutes := total_time_minutes stats + minutes;
          streak := new_streak;
          best_streak := Z.max new_streak (best_streak stats);
          last_workout_date := Some today |} |}.

(** The running totals of the loop of [get_weekly_stats]. *)
Record WeekAcc := {
  acc_workouts : Z;
  acc_calories : Qc;
  acc_minutes : Z;
  acc_breakdown : gmap Z Z
}.

(** [{i: 0 for i in range(7)}]. *)
Definition empty_breakdown : gmap Z Z :=
  list_to_map ((fun i => (i, 0)) <$> [0; 1; 2; 3; 4; 5; 6]).

Definition week_acc0 : WeekAcc :=
  {| acc_workouts := 0; acc_calories := 0%Qc; acc_minutes := 0;
     acc_breakdown := empty_breakdown |}.

(** Monday 00:00 of the week of [now]. *)
Definition week_start (now : Z) : Z :=
  replace_midnight (now - timedelta_days (weekday now)).

(** One iteration of the loop over the history. *)
Definition week_step (start : Z) (acc : WeekAcc) (entry : HistoryEntry)
    : WeekAcc :=
  let entry_date := strptime_ymd (date entry) in
  if start <=? entry_date then
    let day_idx := weekday entry_date in
    {| acc_workouts := acc_workouts acc + 1;
       acc_calories := (acc_calories acc + calories_burned entry)%Qc;
       acc_minutes := acc_minutes acc + duration_minutes entry;
       acc_breakdown := alter (fun n => n + 1) day_idx (acc_breakdown acc) |}
  else acc.

Definition get_weekly_stats (now : Z) (d : Data) : WeeklyStats :=
  let acc := fold_left (week_step (week_start now)) (history d) week_acc0 in
  {| week_workouts := acc_workouts acc;
     week_calories := round1 (acc_calories acc);
     week_minutes := acc_minutes acc;
     daily_breakdown := acc_breakdown acc;
     goal_progress :=
       (Z2Qc (acc_workouts acc)
        / Z2Qc (Z.max (weekly_workouts (goals d)) 1) * Z2Qc 100)%Qc |}.

End DataManager.

(** ** ExerciseTimer *)

Module ExerciseTimer.

(** The fields of the timer object that the caller and the countdown
    thread share. *)
Record Timer := {
  running : bool;
  paused : bool;
  seconds_remaining : Z
}.

(** Where a countdown thread stands in [_run], one point per statement. *)
Inductive Point :=
| AtWhile          (* while self.running and self.seconds_remaining > 0 *)
| AtIfPaused       (* if not self.paused *)
| AtSleep          (* time.sleep(1) *)
| AtIfTick         (* if not self.paused and self.running *)
| AtDecrement      (* self.seconds_remaining -= 1 *)
| AtCallback       (* self.callback(self.seconds_remaining, self.running) *)
| AtShortSleep     (* time.sleep(0.1) *)
| AtIfRunning      (* if self.running *)
| AtClearRunning   (* self.running = False *)
| AtFinalCallback  (* self.callback(0, False) *)
| Finished.

Definition init : Timer :=
  {| running := false; paused := false; seconds_remaining := 0 |}.

(** [start]: the fields are set and a new thread begins [_run]. *)
Definition start (seconds : Z) (t : Timer) : Timer * Point :=
  ({| running := true; paused := false; seconds_remaining := seconds |},
   AtWhile).

Definition pause (t : Timer) : Timer :=
  {| running := running t; paused := true;
     seconds_remaining := seconds_remaining t |}.

Definition resume (t : Timer) : Timer :=
  {| running := running t; paused := false;
     seconds_remaining := seconds_remaining t |}.

Definition stop (t : Timer) : Timer :=
  {| running := false; paused := false;
     seconds_remaining := seconds_remaining t |}.

(** One statement of [_run]: the new fields, the next point and the
    callback the statement makes, if it makes one. *)
Definition thread_step (t : Timer) (p : Point)
    : Timer * Point * option (Z * bool) :=
  match p with
  | AtWhile =>
      if running t && (0 <? seconds_remaining t)
      then (t, AtIfPaused, None) else (t, AtIfRunning, None)
  | AtIfPaused =>
      if negb (paused t) then (t, AtSleep, None) else (t, AtShortSleep, None)
  | AtSleep => (t, AtIfTick, None)
  | AtIfTick =>
      if negb (paused t) && running t
      then (t, AtDecrement, None) else (t, AtWhile, None)
  | AtDecrement =>
      ({| running := running t; paused := paused t;
          seconds_remaining := seconds_remaining t - 1 |}, AtCallback, None)
  | AtCallback => (t, AtWhile, Some (seconds_remaining t, running t))
  | AtShortSleep => (t, AtWhile, None)
  | AtIfRunning =>
      if running t then (t, AtClearRunning, None) else (t, Finished, None)
  | AtClearRunning =>
      ({| running := false; paused := paused t;
          seconds_remaining := seconds_remaining t |}, AtFinalCallback, None)
  | AtFinalCallback => (t, Finished, Some (0, false))
  | Finished => (t, Finished, None)
  end.

(** A timer with one countdown and the callbacks delivered so far, the
    oldest first. *)
Record Countdown := {
  fields : Timer;
  point : Point;
  delivered : list (Z * bool)
}.

(** What can happen next: the thread runs its statement, or the caller
    calls one of the three methods. *)
Inductive Event := Run | Pause | Resume | Stop.

Definition started (seconds : Z) : Countdown :=
  let '(t, p) := start seconds init in
  {| fields := t; point := p; delivered := [] |}.

Definition react (c : Countdown) (e : Event) : Countdown :=
  match e with
  | Run =>
      let '(t, p, cb) := thread_step (fields c) (point c) in
      {| fields := t; point := p;
         delivered := delivered c ++ from_option (fun x => [x]) [] cb |}
  | Pause =>
      {| fields := pause (fields c); point := point c;
         delivered := delivered c |}
  | Resume =>
      {| fields := resume (fields c); point := point c;
         delivered := delivered c |}
  | Stop =>
      {| fields := stop (fields c); point := point c;
         delivered := delivered c |}
  end.

Definition play (c : Countdown) (es : list Event) : Countdown :=
  fold_left react es c.

(** The terminal callback is [(0, False)]. *)
Definition is_terminal (cb : Z * bool) : bool :=
  (fst cb =? 0) && negb (snd cb).

Definition terminal_count (c : Countdown) : nat :=
  length (filter (fun cb => is_terminal cb = true) (delivered c)).

(** The thread waits or tests its loop condition: it is not between the
    test of [self.running] and the callback that follows it. *)
Definition waiting (p : Point) : bool :=
  match p with
  | AtWhile | AtIfPaused | AtSleep | AtIfTick | AtShortSleep => true
  | _ => false
  end.

(** The callbacks of a countdown from [n] that nobody disturbs. *)
Fixpoint ticks (n : nat) : list (Z * bool) :=
  match n with
  | O => []
  | S k => (Z.of_nat k, true) :: ticks k
  end.

End ExerciseTimer.

(** ** Text of the form fields *)

Module PyStr.

(** A text is held as the bytes of its UTF-8 encoding, which is what a
    string of Rocq is. *)

Definition byte (c : ascii) : N := N_of_ascii c.

(** The characters of a text, each as the bytes that encode it: one byte
    when the first is below 192, two from 192, three from 224 and four
    from 240 (fewer when the text ends before). *)
Fixpoint chars (s : list ascii) : list (list ascii) :=
  match s with
  | [] => []
  | b1 :: s1 =>
      if (byte b1 <? 192)%N then [b1] :: chars s1
      else
        match s1 with
        | [] => [[b1]]
        | b2 :: s2 =>
            if (byte b1 <? 224)%N then [b1; b2] :: chars s2
            else
              match s2 with
              | [] => [[b1; b2]]
              | b3 :: s3 =>
                  if (byte b1 <? 240)%N then [b1; b2; b3] :: chars s3
                  else
                    match s3 with
                    | [] => [[b1; b2; b3]]
                    | b4 :: s4 => [b1; b2; b3; b4] :: chars s4
                    end
              end
        end
  end.

(** The code point that stands for bytes that encode no character. *)
Definition not_a_character : N := 65533.

(** The six bits a continuation byte carries. *)
Definition continuation (c : ascii) : option N :=
  if (128 <=? byte c)%N && (byte c <? 192)%N then Some (byte c - 128)%N
  else None.

(** The code point of a character: [ord]. *)
Definition code_point (ch : list ascii) : N :=
  match ch with
  | [b1] => if (byte b1 <? 128)%N then byte b1 else not_a_character
  | [b1; b2] =>
      match continuation b2 with
      | Some x2 =>
          let cp := ((byte b1 - 192) * 64 + x2)%N in
          if (192 <=? byte b1)%N && (byte b1 <? 224)%N && (128 <=? cp)%N
          then cp else not_a_character
      | None => not_a_character
      end
  | [b1; b2; b3] =>
      match continuation b2, continuation b3 with
      | Some x2, Some x3 =>
          let cp := ((byte b1 - 224) * 4096 + x2 * 64 + x3)%N in
          if (224 <=? byte b1)%N && (byte b1 <? 240)%N && (2048 <=? cp)%N
          then cp else not_a_character
      | _, _ => not_a_character
      end
  | [b1; b2; b3; b4] =>
      match continuation b2, continuation b3, continuation b4 with
      | Some x2, Some x3, Some x4 =>
          let cp :=
            ((byte b1 - 240) * 262144 + x2 * 4096 + x3 * 64 + x4)%N in
          if (240 <=? byte b1)%N && (65536 <=? cp)%N && (cp <? 1114112)%N
          then cp else not_a_character
      | _, _, _ => not_a_character
      end
  | _ => not_a_character
  end.

(** [str.isspace] of a character: the characters 9 to 13 and 28 to 32
    and the white space beyond ASCII (U+0085, U+00A0, U+1680, U+2000 to
    U+200A, U+2028, U+2029, U+202F, U+205F and U+3000). *)
Definition isspace (cp : N) : bool :=
  ((9 <=? cp) && (cp <=? 13) || (28 <=? cp) && (cp <=? 32)
   || (cp =? 133) || (cp =? 160) || (cp =? 5760)
   || (8192 <=? cp) && (cp <=? 8202)
   || (cp =? 8232) || (cp =? 8233) || (cp =? 8239) || (cp =? 8287)
   || (cp =? 12288))%N.

Definition is_space (ch : list ascii) : bool := isspace (code_point ch).

Fixpoint lstrip (l : list (list ascii)) : list (list ascii) :=
  match l with
  | ch :: l' => if is_space ch then lstrip l' else l
  | [] => []
  end.

Definition strip_chars (l : list (list ascii)) : list (list ascii) :=
  rev (lstrip (rev (lstrip l))).

(** [str.strip()]. *)
Definition strip (s : string) : string :=
  string_of_list_ascii
    (concat (strip_chars (chars (list_ascii_of_string s)))).

(** *** [float] of a text *)

(** The characters 0 of the decimal digits of Unicode 14.0, the
    characters 1 to 9 following each of them. *)
Definition decimal_zeros : list N :=
  [48; 1632; 1776; 1984; 2406; 2534; 2662; 2790; 2918; 3046; 3174; 3302;
   3430; 3558; 3664; 3792; 3872; 4160; 4240; 6112; 6160; 6470; 6608; 6784;
   6800; 6992; 7088; 7232; 7248; 42528; 43216; 43264; 43472; 43504; 43600;
   44016; 65296; 66720; 68912; 69734; 69872; 69942; 70096; 70384; 70736;
   70864; 71248; 71360; 71472; 71904; 72016; 72784; 73040; 73120; 92768;
   92864; 93008; 120782; 120792; 120802; 120812; 120822; 123200; 123632;
   125264; 130032]%N.

(** The decimal digit a character stands for. *)
Definition todecimal (cp : N) : option N :=
  (fun zero => cp - zero)%N
    <$> List.find (fun zero => (zero <=? cp) && (cp <? zero + 10))%N
                  decimal_zeros.

Definition question_mark : ascii := ascii_of_N 63.
Definition space : ascii := ascii_of_N 32.

(** A text that has a character beyond ASCII is first brought to ASCII:
    its white space becomes a space and its decimal digits become the
    digits 0 to 9; at the first character from 127 on that is neither,
    a question mark ends the text. *)
Fixpoint transform (cps : list N) : list ascii :=
  match cps with
  | [] => []
  | cp :: rest =>
      if (cp <? 127)%N then ascii_of_N cp :: transform rest
      else if isspace cp then space :: transform rest
      else
        match todecimal cp with
        | Some d => ascii_of_N (48 + d) :: transform rest
        | None => [question_mark]
        end
  end.

Definition to_ascii (cps : list N) : list ascii :=
  if forallb (fun cp => cp <? 128)%N cps then ascii_of_N <$> cps
  else transform cps.

(** The white space [float] removes at both ends: the characters 9 to 13
    and the space. *)
Definition is_c_space (c : ascii) : bool :=
  ((9 <=? byte c) && (byte c <=? 13) || (byte c =? 32))%N.

Fixpoint c_lstrip (s : list ascii) : list ascii :=
  match s with
  | c :: s' => if is_c_space c then c_lstrip s' else s
  | [] => []
  end.

Definition c_strip (s : list ascii) : list ascii :=
  rev (c_lstrip (rev (c_lstrip s))).

Definition is_digit (c : ascii) : bool :=
  ((48 <=? byte c) && (byte c <=? 57))%N.

Definition underscore : ascii := ascii_of_N 95.

(** The underscores of a numeric literal are removed; each must stand
    between two digits.  [prev] is the character before. *)
Fixpoint drop_underscores (prev : ascii) (s : list ascii)
    : option (list ascii) :=
  match s with
  | [] => if Ascii.eqb prev underscore then None else Some []
  | c :: s' =>
      if Ascii.eqb c underscore then
        if is_digit prev then drop_underscores c s' else None
      else if Ascii.eqb prev underscore && negb (is_digit c) then None
      else cons c <$> drop_underscores c s'
  end.

(** A sign, if there is one, and what follows it. *)
Definition sign (s : list ascii) : Z * list ascii :=
  match s with
  | c :: s' =>
      if (byte c =? 45)%N then (-1, s')
      else if (byte c =? 43)%N then (1, s')
      else (1, s)
  | [] => (1, s)
  end.

(** The digits a text begins with: their value after [acc], how many
    they are after [count], and what follows them. *)
Fixpoint digits (acc : Z) (count : Z) (s : list ascii)
    : Z * Z * list ascii :=
  match s with
  | c :: s' =>
      if is_digit c
      then digits (10 * acc + Z.of_N (byte c - 48)) (count + 1) s'
      else (acc, count, s)
  | [] => (acc, count, s)
  end.

(** Digits, a point or both, with one digit at least: the digits as one
    integer, the number of digits after the point and what follows. *)
Definition number (s : list ascii) : option (Z * Z * list ascii) :=
  let '(n, k1, s1) := digits 0 0 s in
  match s1 with
  | c :: s2 =>
      if (byte c =? 46)%N then
        let '(m, k2, s3) := digits n 0 s2 in
        if k1 + k2 =? 0 then None else Some (m, k2, s3)
      else if k1 =? 0 then None else Some (n, 0, s1)
  | [] => if k1 =? 0 then None else Some (n, 0, s1)
  end.

(** The exponent, which is 0 when the text has ended: the letter e, a
    sign if there is one, and digits up to the end of the text. *)
Definition exponent (s : list ascii) : option Z :=
  match s with
  | [] => Some 0
  | c :: s1 =>
      if (byte c =? 101)%N || (byte c =? 69)%N then
        let '(sg, s2) := sign s1 in
        match digits 0 0 s2 with
        | (e, k, []) => if k =? 0 then None else Some (sg * e)
        | _ => None
        end
      else None
  end.

Definition lower (c : ascii) : ascii :=
  if (65 <=? byte c)%N && (byte c <=? 90)%N then ascii_of_N (byte c + 32)
  else c.

(** What follows [word] at the start of [s], in either case of the
    letters. *)
Fixpoint after (word s : list ascii) : option (list ascii) :=
  match word, s with
  | [], _ => Some s
  | w :: word', c :: s' =>
      if Ascii.eqb (lower c) w then after word' s' else None
  | _ :: _, [] => None
  end.

(** The words inf, infinity and nan, to the end of the text. *)
Definition inf_or_nan (s : list ascii) : bool :=
  match after (list_ascii_of_string "inf") s with
  | Some [] => true
  | Some r =>
      match after (list_ascii_of_string "inity") r with
      | Some [] => true
      | _ => false
      end
  | None =>
      match after (list_ascii_of_string "nan") s with
      | Some [] => true
      | _ => false
      end
  end.

(** What [float] returns: a number, or one of the two infinities and
    not-a-number. *)
Inductive Float :=
| Finite (q : Qc)
| NotFinite.

(** From this magnitude on the nearest [float] is an infinity. *)
Definition overflow_bound : Z := 2 ^ 1024 - 2 ^ 970.

(** The [float] of a rational: the rational itself within the range of
    [float], an infinity beyond it. *)
Definition of_rational (q : Q) : Float :=
  if Qle_bool (inject_Z overflow_bound) q
     || Qle_bool q (inject_Z (- overflow_bound))
  then NotFinite
  else Finite (Q2Qc q).

(** [float(s)]: the text brought to ASCII, without the white space at
    its ends and without its underscores, is a sign, if any, and then a
    decimal number with its exponent or one of the words inf, infinity
    and nan; [None] is [ValueError].  A number is the exact rational it
    denotes, an infinity when that is beyond the range of [float]. *)
Definition float (s : string) : option Float :=
  let text :=
    c_strip (to_ascii (code_point <$> chars (list_ascii_of_string s))) in
  match drop_underscores zero text with
  | None => None
  | Some literal =>
      let '(sg, s1) := sign literal in
      match number s1 with
      | Some (m, k, s2) =>
          match exponent s2 with
          | Some e =>
              Some (of_rational
                      (inject_Z (sg * m) * Qpower (10 # 1) (e - k)))
          | None => None
          end
      | None => if inf_or_nan s1 then Some NotFinite else None
      end
  end.

End PyStr.

(** ** FitnessApp: the exercise form and the workout engine *)

Module FitnessApp.
Import Calendar.

(** What [_add_exercise] shows: one of the two error boxes or the
    confirmation. *)
Inductive Dialog :=
| InvalidCalories
| MissingFields
| Added (name : string).

(** What [_add_exercise] leaves: a document and the box it has shown.
    The numbers of a document are rationals here, so the case where the
    number [float] returns is an infinity or not-a-number, which the
    code stores as it stores any other, has a result of its own: the
    exercise is stored under [name] with [category] and that number, and
    the confirmation is shown. *)
Inductive Submitted :=
| Shown (d : Data) (dialog : Dialog)
| StoredNotFinite (name category : string).

Definition default_icon : string := "flexed biceps".

(** [_add_exercise] on the texts of the three entries. *)
Definition _add_exercise (name_entry category_entry calories_entry : string)
    (d : Data) : Submitted :=
  let name := PyStr.strip name_entry in
  let category := PyStr.strip category_entry in
  match PyStr.float calories_entry with
  | None => Shown d InvalidCalories
  | Some value =>
      if String.eqb name "" || String.eqb category "" then
        Shown d MissingFields
      else
        match value with
        | PyStr.Finite calories =>
            Shown
              {| data_exercises :=
                   <[name := {| category := category;
                                calories_per_rep := calories;
                                icon := default_icon |}]> (data_exercises d);
                 data_workouts := data_workouts d;
                 history := history d;
                 goals := goals d;
                 user_stats := user_stats d |}
              (Added name)
        | PyStr.NotFinite => StoredNotFinite name category
        end
  end.

(** The texts [exercise_status_label] is given. *)
Inductive Status :=
| ShowSet (icon name : string) (set_number sets reps : Z)
| ShowRest
| ShowIdle.

(** The calls waiting in the [after] queue of the event loop. *)
Inductive Task :=
| StartRest (seconds : Z)
| Update (seconds : Z) (running : bool).

(** The readings of the clock during a workout: at [_start_workout], in
    [_complete_workout] and the two of [add_workout_to_history]. *)
Record Readings := {
  at_start : Z;
  at_complete : Z;
  at_date : Z;
  at_stamp : Z
}.

Record App := {
  data_manager : Data;
  timer : ExerciseTimer.Timer;
  threads : list ExerciseTimer.Point;
  current_workout : option Workout;
  current_exercise_index : nat;
  current_set : Z;
  workout_start_time : option Z;
  burned : Qc;                       (* self.calories_burned *)
  workout_var : string;
  after_queue : list Task;
  status_log : list Status
}.

(** The application after [__init__], over a loaded document. *)
Definition init (d : Data) : App :=
  {| data_manager := d; timer := ExerciseTimer.init; threads := [];
     current_workout := None; current_exercise_index := 0; current_set := 0;
     workout_start_time := None; burned := 0%Qc; workout_var := "";
     after_queue := []; status_log := [] |}.

(** [exercise_data.get('calories_per_rep', 0.5)] and
    [exercise_data.get('icon', ...)], for
    [exercise_data = exercises.get(name, {})]. *)
Definition calories_of (d : Data) (name : string) : Qc :=
  from_option calories_per_rep (Q2Qc (1 # 2)) (data_exercises d !! name).

Definition icon_of (d : Data) (name : string) : string :=
  from_option icon default_icon (data_exercises d !! name).

(** [(now - start).seconds // 60]. *)
Definition elapsed_minutes (now start : Z) : Z :=
  td_seconds (now - start) / 60.

Definition _complete_workout (r : Readings) (a : App) : App :=
  let dm :=
    match workout_start_time a with
    | Some start =>
        let duration := elapsed_minutes (at_complete r) start in
        DataManager.add_workout_to_history (at_date r) (at_stamp r)
          (workout_var a)
          (match current_workout a with
           | Some w => exercises w
           | None => []
           end)
          (Z.max duration 1) (burned a) (data_manager a)
    | None => data_manager a
    end in
  {| data_manager := dm; timer := timer a; threads := threads a;
     current_workout := None;
     current_exercise_index := current_exercise_index a;
     current_set := current_set a;
     workout_start_time := None;
     burned := burned a; workout_var := workout_var a;
     after_queue := after_queue a;
     status_log := status_log a ++ [ShowIdle] |}.

(** The state after the branch of [_next_exercise] that presents a set. *)
Definition present (current : ExerciseStep) (a : App) : App :=
  let d := data_manager a in
  let calories :=
    (calories_of d (name current) * Z2Qc (reps current))%Qc in
  {| data_manager := d; timer := timer a; threads := threads a;
     current_workout := current_workout a;
     current_exercise_index := current_exercise_index a;
     current_set := current_set a;
     workout_start_time := workout_start_time a;
     burned := (burned a + calories)%Qc;
     workout_var := workout_var a;
     after_queue := after_queue a ++ [StartRest (rest current)];
     status_log :=
       status_log a ++
       [ShowSet (icon_of d (name current)) (name current) (current_set a)
                (sets current) (reps current)] |}.

(** The state after [self.current_exercise_index += 1] and
    [self.current_set = 1]. *)
Definition move_on (a : App) : App :=
  {| data_manager := data_manager a; timer := timer a; threads := threads a;
     current_workout := current_workout a;
     current_exercise_index := S (current_exercise_index a);
     current_set := 1;
     workout_start_time := workout_start_time a;
     burned := burned a; workout_var := workout_var a;
     after_queue := after_queue a; status_log := status_log a |}.

(** [_next_exercise], which calls itself after moving to the next
    exercise; [depth] bounds the nesting of these calls and [None] is a
    bound that was too small. *)
Fixpoint next_exercise_within (depth : nat) (r : Readings) (a : App)
    : option App :=
  match current_workout a with
  | None => Some a
  | Some w =>
      match exercises w !! current_exercise_index a with
      | None => Some (_complete_workout r a)
      | Some current =>
          if sets current <? current_set a then
            match depth with
            | O => None
            | S depth' => next_exercise_within depth' r (move_on a)
            end
          else Some (present current a)
      end
  end.

(** Each nested call is one exercise further in the list, so the number
    of exercises still ahead is bound enough (see [_next_exercise_total]). *)
Definition _next_exercise (r : Readings) (a : App) : option App :=
  let ahead :=
    match current_workout a with
    | Some w => (length (exercises w) - current_exercise_index a)%nat
    | None => O
    end in
  next_exercise_within ahead r a.

Definition _start_rest (seconds : Z) (a : App) : App :=
  match current_workout a with
  | None => a
  | Some _ =>
      let '(t, p) := ExerciseTimer.start seconds (timer a) in
      {| data_manager := data_manager a; timer := t;
         threads := threads a ++ [p];
         current_workout := current_workout a;
         current_exercise_index := current_exercise_index a;
         current_set := current_set a + 1;
         workout_start_time := workout_start_time a;
         burned := burned a; workout_var := workout_var a;
         after_queue := after_queue a;
         status_log := status_log a ++ [ShowRest] |}
  end.

Definition with_timer (t : ExerciseTimer.Timer)
    (ps : list ExerciseTimer.Point) (a : App) : App :=
  {| data_manager := data_manager a; timer := t; threads := ps;
     current_workout := current_workout a;
     current_exercise_index := current_exercise_index a;
     current_set := current_set a;
     workout_start_time := workout_start_time a;
     burned := burned a; workout_var := workout_var a;
     after_queue := after_queue a; status_log := status_log a |}.

Definition with_queue (q : list Task) (a : App) : App :=
  {| data_manager := data_manager a; timer := timer a; threads := threads a;
     current_workout := current_workout a;
     current_exercise_index := current_exercise_index a;
     current_set := current_set a;
     workout_start_time := workout_start_time a;
     burned := burned a; workout_var := workout_var a;
     after_queue := q; status_log := status_log a |}.

(** [_timer_callback]: [update] is handed to the event loop. *)
Definition _timer_callback (seconds : Z) (running : bool) (a : App) : App :=
  with_queue (after_queue a ++ [Update seconds running]) a.

(** The closure [update] of [_timer_callback]. *)
Definition update (r : Readings) (seconds : Z) (running : bool) (a : App)
    : option App :=
  if negb running then _next_exercise r a else Some a.

Definition _pause_workout (a : App) : App :=
  if ExerciseTimer.paused (timer a)
  then with_timer (ExerciseTimer.resume (timer a)) (threads a) a
  else with_timer (ExerciseTimer.pause (timer a)) (threads a) a.

Definition _skip_rest (r : Readings) (a : App) : option App :=
  _next_exercise r (with_timer (ExerciseTimer.stop (timer a)) (threads a) a).


(** [_start_workout]; [None] is the [KeyError] of a selected name that is
    not a workout. *)
Definition _start_workout (r : Readings) (a : App) : option App :=
  let workout_name := workout_var a in
  if String.eqb workout_name "" then Some a
  else
    match data_workouts (data_manager a) !! workout_name with
    | None => None
    | Some w =>
        _next_exercise r
          {| data_manager := data_manager a; timer := timer a;
             threads := threads a;
             current_workout := Some w;
             current_exercise_index := 0;
             current_set := 1;
             workout_start_time := Some (at_start r);
             burned := 0%Qc; workout_var := workout_var a;
             after_queue := after_queue a; status_log := status_log a |}
    end.

(** *** The event loop and the countdown threads, left to themselves *)

Definition run_task (r : Readings) (task : Task) (a : App) : option App :=
  match task with
  | StartRest seconds => Some (_start_rest seconds a)
  | Update seconds running => update r seconds running a
  end.

(** The oldest countdown thread runs one statement; a thread that has
    reached the end of [_run] is gone. *)
Definition step_threads (t : ExerciseTimer.Timer)
    (ps : list ExerciseTimer.Point)
    : option (ExerciseTimer.Timer * list ExerciseTimer.Point
              * option (Z * bool)) :=
  match ps with
  | [] => None
  | p :: ps' =>
      let '(t', p', cb) := ExerciseTimer.thread_step t p in
      Some (t',
            match p' with
            | ExerciseTimer.Finished => ps'
            | _ => p' :: ps'
            end, cb)
  end.

(** One turn with no action of the user: the event loop runs the oldest
    waiting call, and when none waits a countdown thread advances, its
    callback being [_timer_callback]. *)
Definition turn (r : Readings) (a : App) : option App :=
  match after_queue a with
  | task :: q => run_task r task (with_queue q a)
  | [] =>
      match step_threads (timer a) (threads a) with
      | Some (t, ps, cb) =>
          let a' := with_timer t ps a in
          Some match cb with
               | Some (seconds, running) => _timer_callback seconds running a'
               | None => a'
               end
      | None => Some a
      end
  end.

Fixpoint run (r : Readings) (turns : nat) (a : App) : option App :=
  match turns with
  | O => Some a
  | S k => turn r a ≫= run r k
  end.

(** Nothing is left to happen: no call waits and no thread runs. *)
Definition at_rest (a : App) : bool :=
  match after_queue a, threads a with
  | [], [] => true
  | _, _ => false
  end.

Definition is_set (s : Status) : bool :=
  match s with ShowSet _ _ _ _ _ => true | _ => false end.

Definition is_rest (s : Status) : bool :=
  match s with ShowRest => true | _ => false end.

(** How many sets and how many rests a log shows. *)
Definition sets_shown (log : list Status) : nat :=
  length (filter (fun s => is_set s = true) log).

Definition rests_shown (log : list Status) : nat :=
  length (filter (fun s => is_rest s = true) log).

End FitnessApp.

(** ** Runs of the ledger and the week of the specification *)

Module Ledger.
Import Calendar DataManager.

(** One call of [add_workout_to_history]: the readings of the clock and
    the arguments. *)
Record Session := {
  read_date : Z;
  read_stamp : Z;
  session_name : string;
  session_steps : list ExerciseStep;
  session_minutes : Z;
  session_calories : Qc
}.

Definition record (d : Data) (s : Session) : Data :=
  add_workout_to_history (read_date s) (read_stamp s) (session_name s)
    (session_steps s) (session_minutes s) (session_calories s) d.

Definition record_all (d : Data) (ss : list Session) : Data :=
  fold_left record ss d.

(** The day a call is made on. *)
Definition day_of (s : Session) : Z := strftime_ymd (read_date s).

(** The calls are made on the days [day], [day + 1], [day + 2], ... *)
Fixpoint consecutive_from (day : Z) (ss : list Session) : Prop :=
  match ss with
  | [] => True
  | s :: ss' => day_of s = day /\ consecutive_from (day + 1) ss'
  end.

(** The entry a call appends. *)
Definition entry_of (s : Session) : HistoryEntry :=
  {| date := day_of s; timestamp := read_stamp s;
     workout_name := session_name s;
     exercises_done := session_steps s;
     duration_minutes := session_minutes s;
     calories_burned := round1 (session_calories s) |}.

(** Replaying an entry of the ledger: the call it records, made again on
    its day with what it stores. *)
Definition replay_entry (d : Data) (e : HistoryEntry) : Data :=
  add_workout_to_history (strptime_ymd (date e)) (timestamp e)
    (workout_name e) (exercises_done e) (duration_minutes e)
    (calories_burned e) d.

Definition replay (start : Data) (h : list HistoryEntry) : Data :=
  fold_left replay_entry h start.

(** The statistics of two documents agree but for the calories. *)
Definition same_but_calories (a b : UserStats) : Prop :=
  total_workouts a = total_workouts b /\
  total_time_minutes a = total_time_minutes b /\
  streak a = streak b /\
  best_streak a = best_streak b /\
  last_workout_date a = last_workout_date b.

Definition sum_Qc (l : list Qc) : Qc := foldr Qcplus 0%Qc l.
Definition sum_Z (l : list Z) : Z := foldr Z.add 0 l.

(** The day of the Monday of the week of [now]. *)
Definition monday (now : Z) : Z := strftime_ymd now - weekday now.

(** The week of the specification: Monday 00:00 up to the next Monday. *)
Definition in_calendar_week (now : Z) (e : HistoryEntry) : bool :=
  (monday now <=? date e) && (date e <? monday now + 7).

(** On or after the Monday of the week, with no end. *)
Definition since_monday (now : Z) (e : HistoryEntry) : bool :=
  monday now <=? date e.

Definition on_weekday (i : Z) (e : HistoryEntry) : bool :=
  weekday_of_day (date e) =? i.

(** The statistics in the words of the specification, over the entries
    a test [keep] selects. *)
Definition sessions (keep : HistoryEntry -> bool) (h : list HistoryEntry)
    : list HistoryEntry :=
  List.filter keep h.

Definition count (h : list HistoryEntry) : Z := Z.of_nat (length h).

Definition progress (session_count weekly_goal : Z) : Qc :=
  (Z2Qc session_count / Z2Qc (Z.max weekly_goal 1) * Z2Qc 100)%Qc.

(** A document with another history. *)
Definition with_history (h : list HistoryEntry) (d : Data) : Data :=
  {| data_exercises := data_exercises d; data_workouts := data_workouts d;
     history := h; goals := goals d; user_stats := user_stats d |}.

End Ledger.

(** ** Concrete ledgers, forms and workouts *)

Module Scenarios.
Import Calendar DataManager Ledger FitnessApp.

(** A session recorded at 18:00 on a given day. *)
Definition session_on (day : Z) (calories : Qc) : Session :=
  {| read_date := strptime_ymd day + 18 * 3600 * us_per_second;
     read_stamp := strptime_ymd day + 18 * 3600 * us_per_second;
     session_name := "T"; session_steps := [];
     session_minutes := 12; session_calories := calories |}.

(** Sessions on 2024-02-28, 2024-02-29 and 2024-03-01, and one on
    2024-03-03, after a day without a session. *)
Definition three_days : list Session :=
  [session_on (ymd2ord 2024 2 28) (Z2Qc 6);
   session_on (ymd2ord 2024 2 29) (Z2Qc 6);
   session_on (ymd2ord 2024 3 1) (Z2Qc 6)].

Definition after_gap : Session := session_on (ymd2ord 2024 3 3) (Z2Qc 6).

(** One session of 0.25 calories. *)
Definition quarter_session : Session :=
  session_on (ymd2ord 2024 3 1) (Q2Qc (1 # 4)).

(** Sunday 2026-11-08 at 23:30, and an entry dated the Monday after
    it. *)
Definition sunday_night : Z :=
  strptime_ymd (ymd2ord 2026 11 8) + (23 * 3600 + 1800) * us_per_second.

Definition next_monday_entry : HistoryEntry :=
  {| date := ymd2ord 2026 11 9;
     timestamp := strptime_ymd (ymd2ord 2026 11 9) + 1800 * us_per_second;
     workout_name := "T"; exercises_done := [];
     duration_minutes := 12; calories_burned := Z2Qc 6 |}.

Definition late_ledger : Data :=
  with_history [next_monday_entry] (default_data ∅ ∅).

Definition no_goal_late_ledger : Data :=
  {| data_exercises := ∅; data_workouts := ∅;
     history := [next_monday_entry];
     goals := {| weekly_workouts := 0; daily_calories := 300 |};
     user_stats := default_stats |}.

(** The workout of the one step A: 2 sets of 10 repetitions, 5 seconds
    of rest. *)
Definition step_A : ExerciseStep :=
  {| name := "A"; sets := 2; reps := 10; rest := 5 |}.

Definition template_A (text : string) : Workout :=
  {| exercises := [step_A]; description := text |}.

(** What a run of [template_A] shows. *)
Definition shown_A (d : Data) : list Status :=
  [ShowSet (icon_of d "A") "A" 1 2 10; ShowRest;
   ShowSet (icon_of d "A") "A" 2 2 10; ShowRest; ShowIdle].

Definition catalog_A : gmap string Exercise :=
  {["A" := {| category := "chest"; calories_per_rep := Q2Qc (3 # 10);
              icon := "arm" |}]}.

Definition workouts_A : gmap string Workout :=
  {["T" := template_A "two sets of A"]}.

(** The application with the workout T selected, over a catalog that has
    the exercise A and over one that has not. *)
Definition app_with (exs : gmap string Exercise) : App :=
  {| data_manager := default_data exs workouts_A;
     timer := ExerciseTimer.init; threads := [];
     current_workout := None; current_exercise_index := 0; current_set := 0;
     workout_start_time := None; burned := 0%Qc; workout_var := "T";
     after_queue := []; status_log := [] |}.

Definition app_A : App := app_with catalog_A.

(** The application at the first set of T, the exercise A not being in
    the table. *)
Definition app_missing : App :=
  {| data_manager := default_data ∅ workouts_A;
     timer := ExerciseTimer.init; threads := [];
     current_workout := Some (template_A "two sets of A");
     current_exercise_index := 0; current_set := 1;
     workout_start_time := Some (strptime_ymd (ymd2ord 2024 3 1));
     burned := 0%Qc; workout_var := "T";
     after_queue := []; status_log := [] |}.

(** A workout started at midnight and completed 30 seconds later. *)
Definition readings_A : Readings :=
  {| at_start := strptime_ymd (ymd2ord 2024 3 1);
     at_complete := strptime_ymd (ymd2ord 2024 3 1) + 30 * us_per_second;
     at_date := strptime_ymd (ymd2ord 2024 3 1) + 30 * us_per_second;
     at_stamp := strptime_ymd (ymd2ord 2024 3 1) + 30 * us_per_second |}.

End Scenarios.

(** ** Runs of sessions without a gap *)

Module MoreLedger.
Import Calendar DataManager Ledger.

(** The calls are made day after day or several on one day: each call is
    on the day of the call before it or on the next day. *)
Fixpoint no_gap (day : Z) (ss : list Session) : Prop :=
  match ss with
  | [] => True
  | s :: ss' => (day_of s = day \/ day_of s = day + 1) /\ no_gap (day_of s) ss'
  end.

(** The day of the last call of a run that begins on [day]. *)
Fixpoint last_day (day : Z) (ss : list Session) : Z :=
  match ss with
  | [] => day
  | s :: ss' => last_day (day_of s) ss'
  end.

(** What every call keeps true of the streaks, [n] calls having been
    made. *)
Definition streaks_ok (n : Z) (stats : UserStats) : Prop :=
  (last_workout_date stats = None /\ streak stats = 0 /\
   best_streak stats = 0 /\ n = 0)
  \/ (last_workout_date stats <> None /\
      1 <= streak stats <= best_streak stats /\ best_streak stats <= n).

(** Sessions on 2024-02-28, two on 2024-02-29 and one on 2024-03-01. *)
Definition two_on_a_day : list Session :=
  [Scenarios.session_on (ymd2ord 2024 2 29) (Z2Qc 6);
   Scenarios.session_on (ymd2ord 2024 2 29) (Z2Qc 6);
   Scenarios.session_on (ymd2ord 2024 3 1) (Z2Qc 6)].

End MoreLedger.

(** ** What the history tab and the weekly chart show *)

Module Views.
Import DataManager.

(** The rows [_populate_history_tree] inserts, the first one on top:
    [reversed(history[-50:])], each entry as the tuple of its date, name,
    minutes and calories. *)
Definition history_rows (d : Data) : list (Z * string * Z * Qc) :=
  (fun e => (date e, workout_name e, duration_minutes e, calories_burned e))
    <$> rev (drop (length (history d) - 50) (history d)).

(** The heights of the bars of [_create_weekly_chart]:
    [[weekly_stats['daily_breakdown'][i] for i in range(7)]]; [None] is
    the [KeyError] of a day that is not a key. *)
Definition chart_values (stats : WeeklyStats) : option (list Z) :=
  mapM (fun i => daily_breakdown stats !! i) [0; 1; 2; 3; 4; 5; 6].

End Views.

(** ** The invariant of a countdown *)

Module CountdownInvariant.
Import ExerciseTimer.

(** The countdown from [n] has delivered its first [k] ticks and no
    other callback, and the seconds left agree with that. *)
Definition on_track (n : Z) (k : nat) (c : Countdown) : Prop :=
  delivered c = take k (ticks (Z.to_nat n)) /\
  match point c with
  | AtWhile => seconds_remaining (fields c) = n - Z.of_nat k
  | AtIfPaused | AtSleep | AtIfTick | AtDecrement | AtShortSleep =>
      seconds_remaining (fields c) = n - Z.of_nat k /\
      0 < seconds_remaining (fields c)
  | AtCallback =>
      seconds_remaining (fields c) = n - Z.of_nat k - 1 /\
      0 <= seconds_remaining (fields c)
  | AtIfRunning | AtClearRunning | AtFinalCallback | Finished => True
  end.

(** The countdown has delivered a callback with the flag [False] after
    its first [k] ticks, and the thread is on its way out. *)
Definition closed (n : Z) (k : nat) (c : Countdown) : Prop :=
  (exists x : Z, delivered c = take k (ticks (Z.to_nat n)) ++ [(x, false)]) /\
  (point c = Finished \/
   running (fields c) = false /\
   (point c = AtWhile \/ point c = AtIfRunning)).

End CountdownInvariant.

(** ** What a workout is to show and to credit *)

Module Plan.
Import ExerciseTimer FitnessApp Ledger.

(** The turns one rest of [seconds] takes: the call of [_start_rest], the
    statements of the countdown thread and the calls of [update]. *)
Definition rest_turns (seconds : Z) : nat := 7 * Z.to_nat seconds + 6.

(** What the sets [k], [k + 1], ... of a step show. *)
Definition sets_from (d : Data) (st : ExerciseStep) (k : Z) : list Status :=
  flat_map
    (fun i => [ShowSet (icon_of d (name st)) (name st) i (sets st) (reps st);
               ShowRest])
    (seqZ k (sets st - k + 1)).

Definition script (d : Data) (steps : list ExerciseStep) : list Status :=
  flat_map (fun st => sets_from d st 1) steps.

(** The calories of one set of a step. *)
Definition set_calories (d : Data) (st : ExerciseStep) : Qc :=
  (calories_of d (name st) * Z2Qc (reps st))%Qc.

Definition workout_calories (d : Data) (steps : list ExerciseStep) : Qc :=
  sum_Qc ((fun st => (Z2Qc (Z.max (sets st) 0) * set_calories d st)%Qc)
            <$> steps).

Definition workout_turns (steps : list ExerciseStep) : nat :=
  sum_list ((fun st => Z.to_nat (sets st) * rest_turns (rest st))%nat
              <$> steps).

(** The application between two sets of a workout: no call waits and no
    thread runs. *)
Definition between_sets (d : Data) (t : Timer) (w : Workout) (idx : nat)
    (k : Z) (start : Z) (b : Qc) (v : string) (log : list Status) : App :=
  {| data_manager := d; timer := t; threads := [];
     current_workout := Some w; current_exercise_index := idx;
     current_set := k; workout_start_time := Some start;
     burned := b; workout_var := v; after_queue := []; status_log := log |}.

End Plan.

(** ** What a call of [_next_exercise] leaves *)

Module Outcome.
Import FitnessApp.

(** What a call of [_next_exercise] during the workout [w] leaves: the
    workout completed, or a set of a step presented. *)
Definition completed (a a' : App) : Prop :=
  current_workout a' = None /\
  workout_start_time a' = None /\
  status_log a' = status_log a ++ [ShowIdle] /\
  burned a' = burned a /\
  after_queue a' = after_queue a.


End Outcome.

(** ** Characters that have all their bytes *)

Module Characters.
Import PyStr.

(** A character that has all its bytes: the characters of a text that
    begins with them are this one and those of the rest. *)
Definition whole (ch : list ascii) : Prop :=
  forall rest : list ascii, chars (ch ++ rest) = ch :: chars rest.

End Characters.

(** ** A countdown on which [stop] is not called *)

Module Unstopped.
Import ExerciseTimer.

(** What holds of a countdown from [n] as long as [stop] is not called:
    the flag running is set until the thread clears it, the callbacks
    delivered are the first ticks, all of them once the loop is left,
    and the terminal callback follows them when the thread has ended. *)
Definition on_course (n : Z) (c : Countdown) : Prop :=
  match point c with
  | AtWhile =>
      running (fields c) = true /\
      exists k : nat,
        delivered c = take k (ticks (Z.to_nat n)) /\
        seconds_remaining (fields c) = n - Z.of_nat k
  | AtIfPaused | AtSleep | AtIfTick | AtDecrement | AtShortSleep =>
      running (fields c) = true /\
      exists k : nat,
        delivered c = take k (ticks (Z.to_nat n)) /\
        seconds_remaining (fields c) = n - Z.of_nat k /\
        0 < seconds_remaining (fields c)
  | AtCallback =>
      running (fields c) = true /\
      exists k : nat,
        delivered c = take k (ticks (Z.to_nat n)) /\
        seconds_remaining (fields c) = n - Z.of_nat k - 1 /\
        0 <= seconds_remaining (fields c)
  | AtIfRunning | AtClearRunning =>
      running (fields c) = true /\ delivered c = ticks (Z.to_nat n)
  | AtFinalCallback => delivered c = ticks (Z.to_nat n)
  | Finished => delivered c = ticks (Z.to_nat n) ++ [(0, false)]
  end.

End Unstopped.

(** ** Two countdowns on one timer *)

Module Restart.
Import ExerciseTimer.

(** The timer after [start] has been called again before the thread of
    the countdown before has ended: two threads run [_run] on the same
    fields.  Each thread has the callbacks it has delivered. *)
Record Pair := {
  shared : Timer;
  older : Point;
  newer : Point;
  heard_older : list (Z * bool);
  heard_newer : list (Z * bool)
}.

(** Which of the two threads runs its next statement. *)
Inductive Turn := Older | Newer.

Definition advance (c : Pair) (w : Turn) : Pair :=
  match w with
  | Older =>
      let '(t, p, cb) := thread_step (shared c) (older c) in
      {| shared := t; older := p; newer := newer c;
         heard_older := heard_older c ++ from_option (fun x => [x]) [] cb;
         heard_newer := heard_newer c |}
  | Newer =>
      let '(t, p, cb) := thread_step (shared c) (newer c) in
      {| shared := t; older := older c; newer := p;
         heard_older := heard_older c;
         heard_newer := heard_newer c ++ from_option (fun x => [x]) [] cb |}
  end.

(** [start] on a timer whose thread stands at [p]. *)
Definition restarted (seconds : Z) (t : Timer) (p : Point) : Pair :=
  let '(t', p') := start seconds t in
  {| shared := t'; older := p; newer := p';
     heard_older := []; heard_newer := [] |}.

End Restart.

(** * Properties *)

(** ** Days and instants *)

Section CalendarFacts.
Import Calendar.

Lemma us_per_day_pos : 0 < us_per_day.
Proof. reflexivity. Qed.

Lemma strftime_strptime (day : Z) : strftime_ymd (strptime_ymd day) = day.
Proof.
  unfold strftime_ymd, strptime_ymd.
  apply Z.div_mul. pose proof us_per_day_pos. lia.
Qed.

(** The days between two midnights are the difference of their days. *)
Lemma days_between (a b : Z) :
  td_days (strptime_ymd a - strptime_ymd b) = a - b.
Proof.
  unfold td_days, strptime_ymd.
  rewrite <- Z.mul_sub_distr_r.
  apply Z.div_mul. pose proof us_per_day_pos. lia.
Qed.

Lemma weekday_strptime (day : Z) :
  weekday (strptime_ymd day) = weekday_of_day day.
Proof. unfold weekday. now rewrite strftime_strptime. Qed.

Lemma weekday_of_day_range (day : Z) : 0 <= weekday_of_day day < 7.
Proof. unfold weekday_of_day. apply Z.mod_pos_bound. lia. Qed.

Lemma strptime_le (a b : Z) :
  (strptime_ymd a <=? strptime_ymd b) = (a <=? b).
Proof.
  unfold strptime_ymd. pose proof us_per_day_pos.
  destruct (Z.leb_spec a b); [apply Z.leb_le | apply Z.leb_gt]; nia.
Qed.

(** The start of the week is the midnight of its Monday. *)
Lemma week_start_monday (now : Z) :
  DataManager.week_start now = strptime_ymd (Ledger.monday now).
Proof.
  unfold DataManager.week_start, replace_midnight, timedelta_days,
    strptime_ymd, Ledger.monday. f_equal.
  replace (now - weekday now * us_per_day)
    with (now + (- weekday now) * us_per_day) by lia.
  rewrite Z.div_add by (pose proof us_per_day_pos; lia).
  unfold strftime_ymd. lia.
Qed.

End CalendarFacts.

(** ** Streaks *)

Section Streaks.
Import Calendar DataManager Ledger Scenarios.

Lemma update_streak_days (today : Z) (stats : UserStats) :
  update_streak today stats =
  match last_workout_date stats with
  | Some last =>
      if today - last =? 1 then streak stats + 1
      else if 1 <? today - last then 1
      else streak stats
  | None => 1
  end.
Proof.
  unfold update_streak. destruct (last_workout_date stats); [|reflexivity].
  cbv zeta. now rewrite days_between.
Qed.

(** C1. [add_workout_to_history] moves the streak by the transition rule:
    with no earlier session it becomes 1; otherwise, for the gap in days
    between today and the last session, a gap of 1 adds one, a larger gap
    makes it 1, a gap of 0 leaves it; and the last session date becomes
    today. *)
Theorem streak_transition (now now' : Z) (w : string)
    (steps : list ExerciseStep) (minutes : Z) (calories : Qc) (d : Data) :
  let today := strftime_ymd now in
  let before := user_stats d in
  let after :=
    user_stats (add_workout_to_history now now' w steps minutes calories d) in
  last_workout_date after = Some today /\
  match last_workout_date before with
  | None => streak after = 1
  | Some last =>
      (today - last = 1 -> streak after = streak before + 1) /\
      (today - last > 1 -> streak after = 1) /\
      (today - last = 0 -> streak after = streak before)
  end.
Proof.
  cbv zeta. split; [reflexivity|].
  cbn [add_workout_to_history user_stats streak].
  rewrite update_streak_days.
  destruct (last_workout_date (user_stats d)) as [last|]; [|reflexivity].
  repeat split; intros Hgap.
  - now rewrite Hgap.
  - destruct (Z.eqb_spec (strftime_ymd now - last) 1); [lia|].
    destruct (Z.ltb_spec 1 (strftime_ymd now - last)); [reflexivity | lia].
  - now rewrite Hgap.
Qed.

(** What a run of calls on consecutive days does to a document whose
    streak and best streak agree and whose last session, if any, was the
    day before the run. *)
Lemma consecutive_run (ss : list Session) : forall (d : Data) (day : Z),
  consecutive_from day ss ->
  0 <= streak (user_stats d) ->
  best_streak (user_stats d) = streak (user_stats d) ->
  (last_workout_date (user_stats d) = None /\ streak (user_stats d) = 0
   \/ last_workout_date (user_stats d) = Some (day - 1)) ->
  let stats := user_stats (record_all d ss) in
  streak stats = streak (user_stats d) + Z.of_nat (length ss) /\
  best_streak stats = streak stats /\
  (ss <> [] ->
   last_workout_date stats = Some (day + Z.of_nat (length ss) - 1)).
Proof.
  induction ss as [|s ss IH]; intros d day Hdays Hpos Hbest Hlast.
  - cbn. repeat split; [lia | assumption | congruence].
  - destruct Hdays as [Hday Hdays].
    assert (Hstep : streak (user_stats (record d s))
                    = streak (user_stats d) + 1).
    { unfold record. cbn [add_workout_to_history user_stats streak].
      rewrite update_streak_days. fold (day_of s). rewrite Hday.
      destruct Hlast as [[-> ->] | ->]; [reflexivity|].
      replace (day - (day - 1)) with 1 by lia. reflexivity. }
    assert (Hb : best_streak (user_stats (record d s))
                 = streak (user_stats (record d s))).
    { rewrite Hstep. unfold record.
      cbn [add_workout_to_history user_stats best_streak].
      fold (record d s). change (update_streak _ _) with
        (streak (user_stats (record d s))). rewrite Hstep. lia. }
    assert (Hl : last_workout_date (user_stats (record d s))
                 = Some (day + 1 - 1)).
    { unfold record. cbn. fold (day_of s). rewrite Hday. f_equal. lia. }
    specialize (IH (record d s) (day + 1) Hdays ltac:(lia) Hb (or_intror Hl)).
    cbv zeta in IH. destruct IH as (IH1 & IH2 & IH3).
    cbn [record_all fold_left length]. fold (record_all (record d s) ss).
    cbv zeta. rewrite IH1, Hstep. repeat split.
    + lia.
    + rewrite IH2, IH1, Hstep. reflexivity.
    + intros _. destruct ss as [|s' ss'].
      * cbn. fold (day_of s). rewrite Hday. f_equal. lia.
      * rewrite IH3 by discriminate. f_equal. cbn [length]. lia.
Qed.

(** C2. From the default document, after calls on [N] consecutive days
    the streak is [N] and the best streak equals the streak. *)
Theorem consecutive_days_streak (exs : gmap string Exercise)
    (wks : gmap string Workout) (day : Z) (ss : list Session) :
  consecutive_from day ss ->
  let stats := user_stats (record_all (default_data exs wks) ss) in
  streak stats = Z.of_nat (length ss) /\ best_streak stats = streak stats.
Proof.
  intros Hdays. cbv zeta.
  pose proof (consecutive_run ss (default_data exs wks) day Hdays) as H.
  cbv zeta in H. destruct H as (H1 & H2 & _);
    [cbn; lia | reflexivity | left; split; reflexivity |].
  split; [exact H1 | exact H2].
Qed.

Lemma consecutive_days_streak_witness :
  consecutive_from (ymd2ord 2024 2 28) three_days /\
  streak (user_stats (record_all (default_data ∅ ∅) three_days)) = 3 /\
  best_streak (user_stats (record_all (default_data ∅ ∅) three_days))
  = streak (user_stats (record_all (default_data ∅ ∅) three_days)).
Proof.
  assert (H : consecutive_from (ymd2ord 2024 2 28) three_days)
    by (vm_compute; repeat split).
  split; [exact H|].
  exact (consecutive_days_streak ∅ ∅ (ymd2ord 2024 2 28) three_days H).
Defined.

Lemma best_streak_grows (d : Data) (s : Session) :
  best_streak (user_stats d) <= best_streak (user_stats (record d s)).
Proof. unfold record. cbn. lia. Qed.

(** C3. After a run of sessions on consecutive days, a call more than one
    day after the last of them makes the streak 1; and no call, in any
    state, lowers the best streak. *)
Theorem gap_resets_streak (exs : gmap string Exercise)
    (wks : gmap string Workout) (day : Z) (ss : list Session) (s : Session) :
  ss <> [] ->
  consecutive_from day ss ->
  day_of s - (day + Z.of_nat (length ss) - 1) > 1 ->
  streak (user_stats (record (record_all (default_data exs wks) ss) s)) = 1
  /\ forall (d : Data) (s' : Session),
       best_streak (user_stats d) <= best_streak (user_stats (record d s')).
Proof.
  intros Hne Hdays Hgap. split; [|apply best_streak_grows].
  assert (Hlast : last_workout_date
                    (user_stats (record_all (default_data exs wks) ss))
                  = Some (day + Z.of_nat (length ss) - 1)).
  { apply (consecutive_run ss (default_data exs wks) day Hdays);
      [cbn; lia | reflexivity | left; split; reflexivity | exact Hne]. }
  unfold record. cbn [add_workout_to_history user_stats streak].
  rewrite update_streak_days, Hlast. fold (day_of s).
  destruct (Z.eqb_spec (day_of s - (day + Z.of_nat (length ss) - 1)) 1);
    [lia|].
  destruct (Z.ltb_spec 1 (day_of s - (day + Z.of_nat (length ss) - 1)));
    [reflexivity | lia].
Qed.

Lemma gap_resets_streak_witness :
  day_of after_gap - (ymd2ord 2024 2 28 + 3 - 1) > 1 /\
  streak (user_stats
            (record (record_all (default_data ∅ ∅) three_days) after_gap))
  = 1.
Proof.
  assert (Hdays : consecutive_from (ymd2ord 2024 2 28) three_days)
    by (vm_compute; repeat split).
  assert (Hgap : day_of after_gap
                 - (ymd2ord 2024 2 28 + Z.of_nat (length three_days) - 1) > 1)
    by reflexivity.
  split; [exact Hgap|].
  apply (gap_resets_streak ∅ ∅ (ymd2ord 2024 2 28) three_days after_gap);
    [discriminate | exact Hdays | exact Hgap].
Defined.

End Streaks.

(** ** Replaying the ledger *)

Section Replay.
Import Calendar DataManager Ledger Scenarios.

Lemma history_record_all (ss : list Session) : forall d : Data,
  history (record_all d ss) = history d ++ (entry_of <$> ss).
Proof.
  induction ss as [|s ss IH]; intros d; cbn.
  - now rewrite app_nil_r.
  - fold (record_all (record d s) ss). rewrite IH. cbn.
    now rewrite <- app_assoc.
Qed.

Lemma replay_entry_of (d d' : Data) (s : Session) :
  same_but_calories (user_stats d) (user_stats d') ->
  same_but_calories (user_stats (record d s))
                    (user_stats (replay_entry d' (entry_of s))).
Proof.
  intros (Hw & Hm & Hs & Hb & Hl).
  unfold record, replay_entry, same_but_calories.
  cbn [add_workout_to_history user_stats total_workouts total_time_minutes
       streak best_streak last_workout_date entry_of date duration_minutes].
  rewrite strftime_strptime. fold (day_of s).
  rewrite !update_streak_days, Hw, Hm, Hs, Hb, Hl. repeat split.
Qed.

Lemma replay_agrees (ss : list Session) : forall d d' : Data,
  same_but_calories (user_stats d) (user_stats d') ->
  same_but_calories (user_stats (record_all d ss))
                    (user_stats (replay d' (entry_of <$> ss))).
Proof.
  induction ss as [|s ss IH]; intros d d' H; [exact H|].
  cbn. apply IH, replay_entry_of, H.
Qed.

Lemma calories_recorded (ss : list Session) : forall d : Data,
  total_calories (user_stats (record_all d ss))
  = (total_calories (user_stats d) + sum_Qc (session_calories <$> ss))%Qc.
Proof.
  induction ss as [|s ss IH]; intros d; cbn.
  - ring.
  - fold (record_all (record d s) ss). rewrite IH. cbn.
    fold (sum_Qc (session_calories <$> ss)). ring.
Qed.

Lemma calories_replayed (ss : list Session) : forall d : Data,
  total_calories (user_stats (replay d (entry_of <$> ss)))
  = (total_calories (user_stats d)
     + sum_Qc ((fun s => round1 (session_calories s)) <$> ss))%Qc.
Proof.
  induction ss as [|s ss IH]; intros d; cbn.
  - ring.
  - fold (replay (replay_entry d (entry_of s)) (entry_of <$> ss)).
    rewrite IH. cbn.
    fold (sum_Qc ((fun s => round1 (session_calories s)) <$> ss)). ring.
Qed.

Lemma stats_eq (a b : UserStats) :
  same_but_calories a b -> total_calories a = total_calories b -> a = b.
Proof.
  destruct a, b. unfold same_but_calories. cbn.
  intros (-> & -> & -> & -> & ->) ->. reflexivity.
Qed.

(** C7, as the code has it. After any sequence of calls from the default
    document, replaying the entries of the ledger from the default
    document gives the same session count, minutes, streak, best streak
    and last session date.  The stored cumulative calories are the sum of
    the calories the calls were given, the replayed ones the sum of the
    values the ledger keeps, which are rounded to one decimal; when no
    call's calories change by that rounding, all the statistics are
    equal. *)
Theorem stats_replay (exs : gmap string Exercise) (wks : gmap string Workout)
    (ss : list Session) :
  let start := default_data exs wks in
  let stored := user_stats (record_all start ss) in
  let replayed := user_stats (replay start (history (record_all start ss))) in
  same_but_calories stored replayed /\
  total_calories stored = sum_Qc (session_calories <$> ss) /\
  total_calories replayed
  = sum_Qc ((fun s => round1 (session_calories s)) <$> ss) /\
  (Forall (fun s => round1 (session_calories s) = session_calories s) ss ->
   replayed = stored).
Proof.
  cbv zeta. rewrite history_record_all. cbn [default_data history app].
  assert (Hsame : same_but_calories
            (user_stats (record_all (default_data exs wks) ss))
            (user_stats (replay (default_data exs wks) (entry_of <$> ss)))).
  { apply replay_agrees. repeat split. }
  assert (Hstored : total_calories
            (user_stats (record_all (default_data exs wks) ss))
            = sum_Qc (session_calories <$> ss)).
  { rewrite calories_recorded. cbn. ring. }
  assert (Hreplayed : total_calories
            (user_stats (replay (default_data exs wks) (entry_of <$> ss)))
            = sum_Qc ((fun s => round1 (session_calories s)) <$> ss)).
  { rewrite calories_replayed. cbn. ring. }
  split; [exact Hsame|]. split; [exact Hstored|].
  split; [exact Hreplayed|]. intros Hexact. symmetry. apply stats_eq; [exact Hsame|].
  rewrite Hstored, Hreplayed. f_equal. clear Hsame Hstored Hreplayed.
  induction Hexact as [|s ss' Hs _ IH]; [reflexivity|].
  rewrite !fmap_cons, Hs, IH. reflexivity.
Qed.

(** C7 fails as stated: one session of 0.25 calories is stored as 0.2 in
    the ledger and as 0.25 in the statistics, so the replay of the ledger
    does not give the stored statistics. *)
Lemma replay_differs :
  let start := default_data ∅ ∅ in
  let d := record_all start [quarter_session] in
  total_calories (user_stats d) = Q2Qc (1 # 4) /\
  total_calories (user_stats (replay start (history d))) = Q2Qc (1 # 5) /\
  user_stats (replay start (history d)) <> user_stats d.
Proof.
  cbv zeta. split; [|split].
  - apply Qc_is_canon. reflexivity.
  - apply Qc_is_canon. reflexivity.
  - intros H. apply (f_equal total_calories) in H.
    apply (f_equal this) in H. vm_compute in H. discriminate.
Qed.

End Replay.

(** ** The statistics of the week *)

Section Week.
Import Calendar DataManager Ledger Scenarios.

(** The test of the loop, on days. *)
Lemma week_step_since (now : Z) (acc : WeekAcc) (e : HistoryEntry) :
  week_step (week_start now) acc e =
  if since_monday now e then
    {| acc_workouts := acc_workouts acc + 1;
       acc_calories := (acc_calories acc + calories_burned e)%Qc;
       acc_minutes := acc_minutes acc + duration_minutes e;
       acc_breakdown :=
         alter (fun n => n + 1) (weekday_of_day (date e))
               (acc_breakdown acc) |}
  else acc.
Proof.
  unfold week_step, since_monday.
  now rewrite week_start_monday, strptime_le, weekday_strptime.
Qed.

Lemma count_cons (e : HistoryEntry) (h : list HistoryEntry) :
  count (e :: h) = count h + 1.
Proof. unfold count. cbn [length]. lia. Qed.

Lemma sum_Qc_cons (x : Qc) (l : list Qc) :
  sum_Qc (x :: l) = (x + sum_Qc l)%Qc.
Proof. reflexivity. Qed.

Lemma sum_Z_cons (x : Z) (l : list Z) : sum_Z (x :: l) = x + sum_Z l.
Proof. reflexivity. Qed.

(** What the loop adds to its running totals. *)
Lemma week_loop (now : Z) (h : list HistoryEntry) : forall acc : WeekAcc,
  let kept := sessions (since_monday now) h in
  let acc' := fold_left (week_step (week_start now)) h acc in
  acc_workouts acc' = acc_workouts acc + count kept /\
  acc_calories acc'
  = (acc_calories acc + sum_Qc (calories_burned <$> kept))%Qc /\
  acc_minutes acc' = acc_minutes acc + sum_Z (duration_minutes <$> kept) /\
  forall i : Z,
    acc_breakdown acc' !! i
    = (fun n => n + count (sessions (on_weekday i) kept))
        <$> acc_breakdown acc !! i.
Proof.
  induction h as [|e h IH]; intros acc; cbv zeta.
  - unfold count, sum_Qc, sum_Z, sessions. cbn.
    split; [lia|]. split; [ring|]. split; [lia|].
    intros i. destruct (acc_breakdown acc !! i) as [n|]; cbn; f_equal; lia.
  - cbn [fold_left sessions List.filter]. rewrite week_step_since.
    fold (sessions (since_monday now) h).
    destruct (since_monday now e) eqn:Hkeep.
    + specialize (IH
        {| acc_workouts := acc_workouts acc + 1;
           acc_calories := (acc_calories acc + calories_burned e)%Qc;
           acc_minutes := acc_minutes acc + duration_minutes e;
           acc_breakdown :=
             alter (fun n => n + 1) (weekday_of_day (date e))
                   (acc_breakdown acc) |}).
      cbv zeta in IH. cbn [acc_workouts acc_calories acc_minutes
                           acc_breakdown] in IH.
      destruct IH as (Hw & Hc & Hm & Hb).
      rewrite Hw, Hc, Hm, count_cons, !fmap_cons, sum_Qc_cons, sum_Z_cons.
      split; [lia|]. split; [ring|]. split; [lia|].
      intros i. rewrite Hb, lookup_alter.
      cbn [sessions List.filter]. unfold on_weekday at 2.
      fold (sessions (on_weekday i) (sessions (since_monday now) h)).
      destruct (decide (weekday_of_day (date e) = i)) as [->|Hne].
      * rewrite Z.eqb_refl, count_cons.
        destruct (acc_breakdown acc !! _); cbn; f_equal; lia.
      * apply Z.eqb_neq in Hne. rewrite Hne. reflexivity.
    + apply IH.
Qed.

Lemma empty_breakdown_lookup (i : Z) :
  0 <= i < 7 -> empty_breakdown !! i = Some 0.
Proof.
  intros Hi.
  assert (Hcases : i = 0 \/ i = 1 \/ i = 2 \/ i = 3 \/ i = 4 \/ i = 5 \/ i = 6)
    by lia.
  destruct Hcases as [->|[->|[->|[->|[->|[->| ->]]]]]]; reflexivity.
Qed.

(** The session count and the daily counts of the week. *)
Lemma week_counts (now : Z) (d : Data) :
  let kept := sessions (since_monday now) (history d) in
  let stats := get_weekly_stats now d in
  week_workouts stats = count kept /\
  forall i : Z, 0 <= i < 7 ->
    daily_breakdown stats !! i = Some (count (sessions (on_weekday i) kept)).
Proof.
  cbv zeta. unfold get_weekly_stats. cbn [week_workouts daily_breakdown].
  pose proof (week_loop now (history d) week_acc0) as H.
  cbv zeta in H. destruct H as (Hw & _ & _ & Hb).
  split; [rewrite Hw; cbn; lia|].
  intros i Hi. rewrite Hb. cbn [week_acc0 acc_breakdown].
  rewrite empty_breakdown_lookup by exact Hi. cbn. f_equal.
Qed.

(** X5. What [get_weekly_stats] computes: the statistics of the entries
    dated on or after the Monday of the week of the reference instant.  The
    session count, the calories summed and rounded to one decimal, the
    minutes summed and the count for each weekday are those of these
    entries; an entry dated before that Monday contributes nothing; the
    loop tests no later bound. *)
Theorem weekly_stats_since_monday (now : Z) (d : Data) :
  let kept := sessions (since_monday now) (history d) in
  let stats := get_weekly_stats now d in
  week_workouts stats = count kept /\
  week_calories stats = round1 (sum_Qc (calories_burned <$> kept)) /\
  week_minutes stats = sum_Z (duration_minutes <$> kept) /\
  (forall i : Z, 0 <= i < 7 ->
     daily_breakdown stats !! i
     = Some (count (sessions (on_weekday i) kept))) /\
  forall (before after : list HistoryEntry) (e : HistoryEntry),
    history d = before ++ e :: after ->
    date e < monday now ->
    get_weekly_stats now (with_history (before ++ after) d) = stats.
Proof.
  cbv zeta. unfold get_weekly_stats.
  cbn [week_workouts week_calories week_minutes daily_breakdown].
  pose proof (week_loop now (history d) week_acc0) as H.
  cbv zeta in H. destruct H as (Hw & Hc & Hm & Hb).
  split; [rewrite Hw; cbn; lia|].
  split; [rewrite Hc; f_equal; cbn; ring|].
  split; [rewrite Hm; cbn; lia|].
  split.
  - intros i Hi. rewrite Hb. cbn [week_acc0 acc_breakdown].
    rewrite empty_breakdown_lookup by exact Hi. cbn. f_equal.
  - intros before after e Hh Hearly.
    cbn [with_history history goals]. rewrite Hh.
    rewrite !fold_left_app. cbn [fold_left].
    rewrite (week_step_since now _ e).
    assert (Hskip : since_monday now e = false)
      by (apply Z.leb_gt; exact Hearly).
    rewrite Hskip. reflexivity.
Qed.

(** C5 on the code: seen from Sunday 2026-11-08, an entry dated Monday
    2026-11-09 lies after the week of 2026-11-02 to 2026-11-08, and
    [get_weekly_stats] counts it: one session, its minutes, one in the
    Monday bucket, where the week has no session at all. *)
Lemma later_entry_counted :
  in_calendar_week sunday_night next_monday_entry = false /\
  sessions (in_calendar_week sunday_night) (history late_ledger) = [] /\
  week_workouts (get_weekly_stats sunday_night late_ledger) = 1 /\
  week_minutes (get_weekly_stats sunday_night late_ledger) = 12 /\
  daily_breakdown (get_weekly_stats sunday_night late_ledger) !! 0 = Some 1.
Proof. repeat split; vm_compute; reflexivity. Qed.

Lemma progress_of_none (goal : Z) : progress 0 goal = 0%Qc.
Proof. unfold progress, Qcdiv. change (Z2Qc 0) with 0%Qc. ring. Qed.

(** X6. For every history and goals the goal progress is the session
    count divided by [max (weekly goal) 1], times 100; and when no entry is
    dated on or after the Monday of the week, in particular when the
    history is empty, the session count is 0, the goal progress is 0 and
    the seven daily counts are 0, whatever the weekly goal. *)
Theorem weekly_goal_progress (now : Z) (d : Data) :
  let stats := get_weekly_stats now d in
  goal_progress stats
  = progress (week_workouts stats) (weekly_workouts (goals d)) /\
  (sessions (since_monday now) (history d) = [] ->
   week_workouts stats = 0 /\
   goal_progress stats = 0%Qc /\
   forall i : Z, 0 <= i < 7 -> daily_breakdown stats !! i = Some 0).
Proof.
  cbv zeta. split; [reflexivity|]. intros Hnone.
  pose proof (week_counts now d) as H. cbv zeta in H.
  destruct H as (Hw & Hb).
  rewrite Hnone in Hw, Hb. change (count []) with 0 in Hw.
  split; [exact Hw|]. split.
  - change (goal_progress (get_weekly_stats now d))
      with (progress (week_workouts (get_weekly_stats now d))
                     (weekly_workouts (goals d))).
    rewrite Hw. apply progress_of_none.
  - intros i Hi. rewrite (Hb i Hi). reflexivity.
Qed.

(** C6 on the code: the week of Sunday 2026-11-08 contains no session of
    this ledger, whose only entry is dated the Monday after it and whose
    weekly goal is 0, and [get_weekly_stats] returns one session, a goal
    progress of 100 and 1 in the Monday bucket. *)
Lemma empty_week_not_zero :
  sessions (in_calendar_week sunday_night) (history no_goal_late_ledger) = [] /\
  week_workouts (get_weekly_stats sunday_night no_goal_late_ledger) = 1 /\
  goal_progress (get_weekly_stats sunday_night no_goal_late_ledger)
  = Z2Qc 100 /\
  daily_breakdown (get_weekly_stats sunday_night no_goal_late_ledger) !! 0
  = Some 1.
Proof.
  split; [reflexivity|]. split; [reflexivity|].
  split; [apply Qc_is_canon; reflexivity | reflexivity].
Qed.

End Week.

(** ** The countdown *)

Section Countdown.
Import ExerciseTimer.

Lemma play_app (c : Countdown) (es es' : list Event) :
  play c (es ++ es') = play (play c es) es'.
Proof. apply fold_left_app. Qed.

Lemma runs_add (a b : nat) : repeat Run (a + b) = repeat Run a ++ repeat Run b.
Proof. apply repeat_app. Qed.

(** A thread that has finished does nothing more. *)
Lemma finished_stays (k : nat) : forall c : Countdown,
  point c = Finished -> play c (repeat Run k) = c.
Proof.
  induction k as [|k IH]; intros c Hc; [reflexivity|].
  cbn [repeat play fold_left]. fold (play (react c Run) (repeat Run k)).
  assert (Hstep : react c Run = c).
  { destruct c as [t p log]. cbn in Hc. subst p. cbn.
    now rewrite app_nil_r. }
  rewrite Hstep. apply IH, Hc.
Qed.

(** One second of an undisturbed countdown: six statements and one
    callback. *)
Lemma one_tick (n : Z) (log : list (Z * bool)) :
  0 < n ->
  play {| fields := {| running := true; paused := false;
                       seconds_remaining := n |};
          point := AtWhile; delivered := log |} (repeat Run 6)
  = {| fields := {| running := true; paused := false;
                    seconds_remaining := n - 1 |};
       point := AtWhile; delivered := log ++ [(n - 1, true)] |}.
Proof.
  intros Hn. cbn [repeat play fold_left]. unfold react at 6.
  cbn [thread_step fields point running seconds_remaining andb].
  destruct (Z.ltb_spec 0 n); [|lia].
  cbn. now rewrite !app_nil_r.
Qed.

Lemma ticks_snoc (n : nat) :
  ticks (S n) = (Z.of_nat n, true) :: ticks n.
Proof. reflexivity. Qed.

(** The whole countdown, from any number of seconds still to go. *)
Lemma countdown_runs (n : nat) : forall (s : Z) (log : list (Z * bool)),
  Z.to_nat s = n ->
  play {| fields := {| running := true; paused := false;
                       seconds_remaining := s |};
          point := AtWhile; delivered := log |} (repeat Run (6 * n + 4))
  = {| fields := {| running := false; paused := false;
                    seconds_remaining := Z.min s 0 |};
       point := Finished; delivered := log ++ ticks n ++ [(0, false)] |}.
Proof.
  induction n as [|n IH]; intros s log Hs.
  - cbn [Nat.mul Nat.add repeat play fold_left]. unfold react at 4.
    cbn [thread_step fields point running seconds_remaining andb].
    destruct (Z.ltb_spec 0 s); [lia|].
    cbn. rewrite ?app_nil_r. do 2 f_equal. lia.
  - replace (6 * S n + 4)%nat with (6 + (6 * n + 4))%nat by lia.
    rewrite runs_add, play_app, one_tick by lia.
    rewrite IH by lia. rewrite ticks_snoc, <- app_assoc.
    replace (s - 1) with (Z.of_nat n) by lia.
    do 2 f_equal. lia.
Qed.

Lemma ticks_not_terminal (n : nat) :
  filter (fun cb => is_terminal cb = true) (ticks n) = [].
Proof.
  induction n as [|n IH]; [reflexivity|].
  rewrite ticks_snoc, filter_cons_False; [exact IH|].
  unfold is_terminal. cbn. rewrite andb_false_r. discriminate.
Qed.

(** After [stop] a thread that was waiting ends within five statements
    and delivers nothing. *)
Lemma stopped_while_waiting (c : Countdown) (k : nat) :
  waiting (point c) = true ->
  let c' := play (react c Stop) (repeat Run k) in
  delivered c' = delivered c /\ (5 <= k -> point c' = Finished)%nat.
Proof.
  intros Hw. destruct c as [[r p s] pt log]. cbv zeta.
  assert (Hfive : play (react {| fields := {| running := r; paused := p;
                                              seconds_remaining := s |};
                                 point := pt; delivered := log |} Stop)
                       (repeat Run 5)
                  = {| fields := {| running := false; paused := false;
                                    seconds_remaining := s |};
                       point := Finished; delivered := log |}).
  { destruct pt; try discriminate Hw; cbn; now rewrite ?app_nil_r. }
  destruct (Nat.le_gt_cases 5 k) as [Hk|Hk].
  - replace k with (5 + (k - 5))%nat by lia.
    rewrite runs_add, play_app, Hfive, finished_stays by reflexivity.
    split; [reflexivity | intros _; reflexivity].
  - split; [|lia].
    assert (Hcases : (k = 0 \/ k = 1 \/ k = 2 \/ k = 3 \/ k = 4)%nat) by lia.
    destruct Hcases as [->|[->|[->|[->| ->]]]];
      destruct pt; try discriminate Hw; cbn; now rewrite ?app_nil_r.
Qed.

Lemma ticks_length (n : nat) : length (ticks n) = n.
Proof. induction n as [|n IH]; [reflexivity|]. cbn. now rewrite IH. Qed.

Lemma ticks_lookup (n : nat) : forall k : nat,
  (k < n)%nat -> ticks n !! k = Some (Z.of_nat (n - 1 - k), true).
Proof.
  induction n as [|n IH]; intros k Hk; [lia|].
  destruct k as [|k]; cbn [ticks lookup list_lookup].
  - replace (S n - 1 - 0)%nat with n by lia. reflexivity.
  - rewrite IH by lia.
    replace (S n - 1 - S k)%nat with (n - 1 - k)%nat by lia. reflexivity.
Qed.

Lemma play_snoc (c : Countdown) (es : list Event) (e : Event) :
  play c (es ++ [e]) = react (play c es) e.
Proof. unfold play. now rewrite fold_left_app. Qed.

(** As long as [stop] is not called the countdown stays on its course,
    whatever [pause] and [resume] do. *)
Lemma course_kept (n : Z) (es : list Event) :
  Forall (fun e => e <> Stop) es ->
  Unstopped.on_course n (play (started n) es).
Proof.
  induction es as [|e es IH] using rev_ind; intros Hes.
  - cbn. split; [reflexivity|]. exists 0%nat. split; [reflexivity|].
    cbn. lia.
  - apply Forall_app in Hes as [Hes He]. specialize (IH Hes).
    apply Forall_inv in He. rewrite play_snoc.
    destruct (play (started n) es) as [[r p s] pt log].
    unfold Unstopped.on_course in *.
    cbn [point fields delivered running seconds_remaining] in IH.
    destruct e; [| | |congruence].
    + destruct pt;
        cbn [react thread_step fields point delivered running paused
             seconds_remaining from_option];
        try match type of IH with
            | _ /\ _ => destruct IH as [-> IH]
            end; cbn [andb].
      * destruct IH as (k & Hlog & Hs).
        destruct (Z.ltb_spec 0 s) as [Hpos|Hpos];
          cbn [point fields delivered running seconds_remaining];
          rewrite app_nil_r; (split; [reflexivity|]).
        -- exists k. auto.
        -- rewrite Hlog. apply take_ge. rewrite ticks_length. lia.
      * destruct (negb p);
          cbn [point fields delivered running seconds_remaining];
          rewrite app_nil_r; (split; [reflexivity | exact IH]).
      * cbn [point fields delivered running seconds_remaining].
        rewrite app_nil_r. split; [reflexivity | exact IH].
      * destruct IH as (k & Hlog & Hs & Hpos).
        destruct (negb p);
          cbn [andb point fields delivered running seconds_remaining];
          rewrite app_nil_r; (split; [reflexivity|]); exists k; auto.
      * destruct IH as (k & Hlog & Hs & Hpos).
        cbn [point fields delivered running seconds_remaining].
        rewrite app_nil_r. split; [reflexivity|]. exists k.
        split; [exact Hlog|]. lia.
      * destruct IH as (k & Hlog & Hs & Hpos).
        cbn [point fields delivered running seconds_remaining].
        split; [reflexivity|]. exists (S k). split; [|lia].
        rewrite (take_S_r _ _ (s, true)); [now rewrite Hlog|].
        rewrite ticks_lookup by lia. do 3 f_equal. lia.
      * destruct IH as (k & Hlog & Hs & Hpos).
        cbn [point fields delivered running seconds_remaining].
        rewrite app_nil_r. split; [reflexivity|]. exists k. auto.
      * cbn [point fields delivered running seconds_remaining].
        rewrite app_nil_r. split; [reflexivity | exact IH].
      * cbn [point fields delivered running seconds_remaining].
        rewrite app_nil_r. exact IH.
      * cbn [point fields delivered running seconds_remaining].
        now rewrite IH.
      * cbn [point fields delivered running seconds_remaining].
        rewrite app_nil_r. exact IH.
    + cbn [react pause fields point delivered running seconds_remaining].
      destruct pt; exact IH.
    + cbn [react resume fields point delivered running seconds_remaining].
      destruct pt; exact IH.
Qed.

(** C9, as the code has it. A countdown on which [stop] is not called,
    its timer not being started again meanwhile, and whose thread has
    ended has delivered its ticks and then the terminal callback
    [(0, False)], exactly once and as the last callback, whatever
    [pause] and [resume] have done meanwhile; left to itself the thread
    does end, and it delivers nothing after the terminal callback.  When
    [stop] is called while the thread waits (in a sleep or at a test of
    its loop), the thread ends without delivering any callback, the
    terminal one included. *)
Theorem terminal_callback (seconds : Z) :
  let n := Z.to_nat seconds in
  let c := play (started seconds) (repeat Run (6 * n + 4)) in
  point c = Finished /\
  delivered c = ticks n ++ [(0, false)] /\
  terminal_count c = 1%nat /\
  (forall k : nat, play c (repeat Run k) = c) /\
  (forall es : list Event,
     Forall (fun e => e <> Stop) es ->
     point (play (started seconds) es) = Finished ->
     delivered (play (started seconds) es) = ticks n ++ [(0, false)] /\
     terminal_count (play (started seconds) es) = 1%nat) /\
  forall (c' : Countdown) (k : nat),
    waiting (point c') = true ->
    delivered (play (react c' Stop) (repeat Run k)) = delivered c' /\
    (5 <= k -> point (play (react c' Stop) (repeat Run k)) = Finished)%nat.
Proof.
  cbv zeta.
  assert (Hc : play (started seconds) (repeat Run (6 * Z.to_nat seconds + 4))
               = {| fields := {| running := false; paused := false;
                                 seconds_remaining := Z.min seconds 0 |};
                    point := Finished;
                    delivered := ticks (Z.to_nat seconds) ++ [(0, false)] |}).
  { unfold started, start.
    now rewrite (countdown_runs (Z.to_nat seconds) seconds []). }
  rewrite !Hc. clear Hc.
  split; [reflexivity|]. split; [reflexivity|]. split.
  { unfold terminal_count. cbn [delivered app].
    rewrite filter_app, ticks_not_terminal. reflexivity. }
  split; [intros k; now apply finished_stays|]. split.
  - intros es Hes Hend. pose proof (course_kept seconds es Hes) as H.
    unfold Unstopped.on_course in H. rewrite Hend in H.
    split; [exact H|]. unfold terminal_count.
    rewrite H, filter_app, ticks_not_terminal. reflexivity.
  - intros c' k Hw. now apply stopped_while_waiting.
Qed.

(** C9 fails as stated: a countdown of five seconds, stopped after its
    first tick, ends having delivered that tick alone; the terminal
    callback is not delivered. *)
Lemma stop_gives_no_terminal :
  let c := play (started 5) (repeat Run 6 ++ [Stop] ++ repeat Run 50) in
  point c = Finished /\
  delivered c = [(4, true)] /\
  terminal_count c = 0%nat.
Proof. repeat split. Qed.

(** When [start] is called again before the thread of the countdown
    before has ended, the two threads count the same seconds down and
    the first to leave the loop clears the flag.  Here the second
    countdown, of two seconds and never stopped, delivers one tick and
    no terminal callback. *)
Lemma second_start_shares_fields :
  let c :=
    fold_left Restart.advance
      (repeat Restart.Older 6 ++ repeat Restart.Newer 6
       ++ repeat Restart.Older 4 ++ repeat Restart.Newer 2)
      (Restart.restarted 2 (fst (start 2 init)) AtWhile) in
  Restart.older c = Finished /\
  Restart.newer c = Finished /\
  Restart.heard_older c = [(1, true); (0, false)] /\
  Restart.heard_newer c = [(0, true)].
Proof. repeat split. Qed.

End Countdown.

(** ** The exercise form *)

Section Form.
Import FitnessApp Scenarios.



End Form.

(** ** The workout engine *)

Section Engine.
Import FitnessApp Scenarios.

Lemma move_on_workout (a : App) :
  current_workout (move_on a) = current_workout a.
Proof. reflexivity. Qed.

(** The bound [_next_exercise] gives itself is enough: it returns. *)
Lemma next_exercise_within_total (r : Readings) (depth : nat) :
  forall a : App,
    (forall w, current_workout a = Some w ->
       (length (exercises w) - current_exercise_index a <= depth)%nat) ->
    is_Some (next_exercise_within depth r a).
Proof.
  induction depth as [|depth IH]; intros a Hdepth.
  - cbn. destruct (current_workout a) as [w|] eqn:Hw; [|eauto].
    destruct (exercises w !! current_exercise_index a) as [current|] eqn:Hc;
      [|eauto].
    apply lookup_lt_Some in Hc. specialize (Hdepth w eq_refl). lia.
  - cbn. destruct (current_workout a) as [w|] eqn:Hw; [|eauto].
    destruct (exercises w !! current_exercise_index a) as [current|] eqn:Hc;
      [|eauto].
    destruct (sets current <? current_set a); [|eauto].
    apply IH. intros w' Hw'. rewrite move_on_workout, Hw in Hw'.
    injection Hw' as <-. specialize (Hdepth w eq_refl). cbn. lia.
Qed.

Lemma _next_exercise_total (r : Readings) (a : App) :
  is_Some (_next_exercise r a).
Proof.
  unfold _next_exercise. apply next_exercise_within_total.
  intros w ->. reflexivity.
Qed.

(** C10. When the step to present names an exercise the table does not
    have, [_next_exercise] still presents the set: it returns, shows the
    set, credits 0.5 calories for each repetition of the step and asks
    for the rest timer. *)
Theorem missing_exercise_default (r : Readings) (a : App) (w : Workout)
    (current : ExerciseStep) :
  current_workout a = Some w ->
  exercises w !! current_exercise_index a = Some current ->
  current_set a <= sets current ->
  data_exercises (data_manager a) !! name current = None ->
  exists a' : App,
    _next_exercise r a = Some a' /\
    burned a' = (burned a + Q2Qc (1 # 2) * Z2Qc (reps current))%Qc /\
    status_log a'
    = status_log a ++ [ShowSet default_icon (name current) (current_set a)
                               (sets current) (reps current)] /\
    after_queue a' = after_queue a ++ [StartRest (rest current)] /\
    current_workout a' = Some w /\
    current_exercise_index a' = current_exercise_index a /\
    current_set a' = current_set a.
Proof.
  intros Hw Hc Hset Hmissing. exists (present current a).
  assert (Hnot : (sets current <? current_set a) = false)
    by (apply Z.ltb_ge; exact Hset).
  split.
  - unfold _next_exercise. rewrite Hw.
    destruct (length (exercises w) - current_exercise_index a)%nat;
      cbn; now rewrite Hw, Hc, Hnot.
  - unfold present, calories_of, icon_of. cbn. rewrite Hmissing. cbn.
    repeat split. exact Hw.
Qed.

Lemma missing_exercise_default_witness :
  exists a' : App,
    _next_exercise readings_A app_missing = Some a' /\
    burned a' = (burned app_missing + Q2Qc (1 # 2) * Z2Qc 10)%Qc /\
    status_log a' = [ShowSet default_icon "A" 1 2 10] /\
    after_queue a' = [StartRest 5] /\
    current_workout a' = Some (template_A "two sets of A") /\
    current_exercise_index a' = 0%nat /\
    current_set a' = 1.
Proof.
  apply (missing_exercise_default readings_A app_missing
           (template_A "two sets of A") step_A);
    [reflexivity | reflexivity | cbn; lia | reflexivity].
Defined.

End Engine.

Section Run.
Import FitnessApp Scenarios.

Lemma at_rest_empty (a : App) :
  at_rest a = true -> after_queue a = [] /\ threads a = [].
Proof.
  unfold at_rest. destruct (after_queue a), (threads a); try discriminate.
  now split.
Qed.

(** At rest nothing happens any more. *)
Lemma run_at_rest (r : Readings) (k : nat) : forall a : App,
  at_rest a = true -> run r k a = Some a.
Proof.
  induction k as [|k IH]; intros a Hrest; [reflexivity|].
  cbn [run]. destruct (at_rest_empty a Hrest) as [Hq Ht].
  unfold turn, step_threads. rewrite Hq, Ht. cbn. now apply IH.
Qed.

Lemma elapsed_at_least_one (now start : Z) :
  1 <= Z.max (elapsed_minutes now start) 1.
Proof. lia. Qed.

Lemma five_added {A : Type} (l : list A) (a b c d e : A) :
  ((((l ++ [a]) ++ [b]) ++ [c]) ++ [d]) ++ [e] = l ++ [a; b; c; d; e].
Proof. now rewrite <- !app_assoc. Qed.

(** C4, as the code has it. A workout of the one step A, 2 sets of 10
    repetitions with 5 seconds of rest, started from an application at
    rest and left to run, comes to rest for good after showing the two
    sets and, after each of them, a rest: two rests, the second one before
    the workout is recorded.  The calories are 2 * 10 * those of A for a
    repetition, and one entry is appended to the history, of at least
    one minute. *)
Theorem two_set_workout (r : Readings) (a : App) (text : string) :
  workout_var a <> "" ->
  data_workouts (data_manager a) !! workout_var a = Some (template_A text) ->
  at_rest a = true ->
  exists (a' : App) (e : HistoryEntry),
    (_start_workout r a ≫= run r 82) = Some a' /\
    at_rest a' = true /\
    (forall k : nat, run r k a' = Some a') /\
    current_workout a' = None /\
    status_log a' = status_log a ++ shown_A (data_manager a) /\
    sets_shown (shown_A (data_manager a)) = 2%nat /\
    rests_shown (shown_A (data_manager a)) = 2%nat /\
    burned a'
    = (Z2Qc 2 * Z2Qc 10 * calories_of (data_manager a) "A")%Qc /\
    history (data_manager a') = history (data_manager a) ++ [e] /\
    1 <= duration_minutes e /\
    calories_burned e = round1 (burned a').
Proof.
  intros Hname Hlookup Hrest.
  apply at_rest_empty in Hrest as [Hq Ht].
  destruct a as [d t ps cw idx set start cal var q log].
  cbn in Hname, Hlookup, Hq, Ht. subst q ps.
  unfold _start_workout. cbn [workout_var data_manager status_log].
  apply String.eqb_neq in Hname. rewrite Hname, Hlookup.
  eexists. eexists.
  split.
  { lazy -[Qcplus Qcmult Z2Qc Q2Qc calories_of icon_of elapsed_minutes
           Z.max DataManager.add_workout_to_history].
    reflexivity. }
  assert (Hcal : (Q2Qc 0 + calories_of d "A" * Z2Qc 10
                  + calories_of d "A" * Z2Qc 10
                  = Z2Qc 2 * Z2Qc 10 * calories_of d "A")%Qc).
  { replace (Z2Qc 2) with (1 + 1)%Qc by (apply Qc_is_canon; reflexivity).
    change (Q2Qc 0) with 0%Qc. ring. }
  cbn [burned data_manager current_workout status_log].
  split; [reflexivity|].
  split; [intros k; now apply run_at_rest|].
  split; [reflexivity|].
  split; [apply five_added|].
  split; [reflexivity|]. split; [reflexivity|].
  split; [exact Hcal|].
  split; [reflexivity|].
  split; [apply elapsed_at_least_one | reflexivity].
Qed.

Lemma two_set_workout_witness :
  exists (a' : App) (e : HistoryEntry),
    (_start_workout readings_A app_A ≫= run readings_A 82) = Some a' /\
    at_rest a' = true /\
    (forall k : nat, run readings_A k a' = Some a') /\
    current_workout a' = None /\
    status_log a' = status_log app_A ++ shown_A (data_manager app_A) /\
    sets_shown (shown_A (data_manager app_A)) = 2%nat /\
    rests_shown (shown_A (data_manager app_A)) = 2%nat /\
    burned a'
    = (Z2Qc 2 * Z2Qc 10 * calories_of (data_manager app_A) "A")%Qc /\
    history (data_manager a') = history (data_manager app_A) ++ [e] /\
    1 <= duration_minutes e /\
    calories_burned e = round1 (burned a').
Proof.
  apply (two_set_workout readings_A app_A "two sets of A");
    [discriminate | reflexivity | reflexivity].
Defined.

(** C4 fails as stated: the run of the two sets of A shows two rests, not
    one, before it comes to rest with the workout recorded. *)
Lemma two_rests_not_one :
  let final := _start_workout readings_A app_A ≫= run readings_A 82 in
  at_rest <$> final = Some true /\
  status_log <$> final
  = Some [ShowSet "arm" "A" 1 2 10; ShowRest;
          ShowSet "arm" "A" 2 2 10; ShowRest; ShowIdle] /\
  rests_shown <$> (status_log <$> final) = Some 2%nat /\
  sets_shown <$> (status_log <$> final) = Some 2%nat /\
  (length ∘ history ∘ data_manager) <$> final = Some 1%nat.
Proof. cbv zeta. repeat split; vm_compute; reflexivity. Qed.

End Run.

(** ** The ledger over any run of sessions *)

Section LedgerRuns.
Import Calendar DataManager Ledger MoreLedger Scenarios.

(** X1. [add_workout_to_history] only appends. After any sequence of
    calls the history is the history there was, followed by one entry
    for each call in the order of the calls; the session count has grown
    by the number of calls and the minutes by the sum of the minutes
    given; the exercises, the workouts and the goals are untouched. *)
Theorem ledger_append_only (d : Data) (ss : list Session) :
  let d' := record_all d ss in
  history d' = history d ++ (entry_of <$> ss) /\
  total_workouts (user_stats d')
  = total_workouts (user_stats d) + Z.of_nat (length ss) /\
  total_time_minutes (user_stats d')
  = total_time_minutes (user_stats d) + sum_Z (session_minutes <$> ss) /\
  data_exercises d' = data_exercises d /\
  data_workouts d' = data_workouts d /\
  goals d' = goals d.
Proof.
  cbv zeta. revert d. induction ss as [|s ss IH]; intros d.
  - cbn. rewrite app_nil_r. repeat split; lia.
  - cbn [record_all fold_left]. fold (record_all (record d s) ss).
    destruct (IH (record d s)) as (Hh & Hw & Hm & He & Hk & Hg).
    rewrite Hh, Hw, Hm, He, Hk, Hg, !fmap_cons, sum_Z_cons.
    unfold record. cbn [add_workout_to_history history user_stats
      total_workouts total_time_minutes data_exercises data_workouts goals
      length].
    rewrite <- app_assoc.
    split; [reflexivity|]. split; [lia|]. split; [lia|]. repeat split.
Qed.

Lemma streaks_ok_record (n : Z) (d : Data) (s : Session) :
  streaks_ok n (user_stats d) -> streaks_ok (n + 1) (user_stats (record d s)).
Proof.
  intros H. right. unfold record.
  cbn [add_workout_to_history user_stats last_workout_date streak best_streak].
  rewrite update_streak_days. split; [discriminate|].
  destruct H as [(Hl & Hs & Hb & Hn) | (Hl & Hs & Hb)].
  - rewrite Hl, Hb. lia.
  - destruct (last_workout_date (user_stats d)) as [last|]; [|congruence].
    destruct (_ =? 1); [lia|]. destruct (1 <? _); lia.
Qed.

Lemma streaks_ok_run (ss : list Session) : forall (n : Z) (d : Data),
  streaks_ok n (user_stats d) ->
  streaks_ok (n + Z.of_nat (length ss)) (user_stats (record_all d ss)).
Proof.
  induction ss as [|s ss IH]; intros n d H.
  - cbn. now rewrite Z.add_0_r.
  - cbn [record_all fold_left length]. fold (record_all (record d s) ss).
    replace (n + Z.of_nat (S (length ss)))
      with (n + 1 + Z.of_nat (length ss)) by lia.
    apply IH, streaks_ok_record, H.
Qed.

(** X2. After one call or more of [add_workout_to_history] from the
    default document the streak is at least 1, the best streak is at
    least the streak, and the best streak is at most the number of
    calls. *)
Theorem streak_bounds (exs : gmap string Exercise) (wks : gmap string Workout)
    (ss : list Session) :
  ss <> [] ->
  let stats := user_stats (record_all (default_data exs wks) ss) in
  1 <= streak stats /\
  streak stats <= best_streak stats /\
  best_streak stats <= Z.of_nat (length ss).
Proof.
  intros Hne. cbv zeta.
  pose proof (streaks_ok_run ss 0 (default_data exs wks)) as H.
  destruct H as [(_ & _ & _ & Hn) | (_ & Hs & Hb)].
  - left. repeat split.
  - destruct ss; [congruence|]. cbn [length] in Hn. lia.
  - lia.
Qed.

Lemma streak_bounds_witness :
  1 <= streak (user_stats (record_all (default_data ∅ ∅) three_days)) /\
  streak (user_stats (record_all (default_data ∅ ∅) three_days))
  <= best_streak (user_stats (record_all (default_data ∅ ∅) three_days)) /\
  best_streak (user_stats (record_all (default_data ∅ ∅) three_days))
  <= Z.of_nat (length three_days).
Proof. apply (streak_bounds ∅ ∅ three_days). discriminate. Defined.

(** A run without a gap, after a first session on [first] and with the
    last session so far on [day]. *)
Lemma no_gap_run (ss : list Session) : forall (d : Data) (first day : Z),
  no_gap day ss ->
  last_workout_date (user_stats d) = Some day ->
  streak (user_stats d) = day - first + 1 ->
  best_streak (user_stats d) = streak (user_stats d) ->
  let stats := user_stats (record_all d ss) in
  streak stats = last_day day ss - first + 1 /\
  best_streak stats = streak stats /\
  last_workout_date stats = Some (last_day day ss).
Proof.
  induction ss as [|s ss IH]; intros d first day Hgap Hlast Hstreak Hbest.
  - cbn. split; [exact Hstreak|]. split; [exact Hbest | exact Hlast].
  - destruct Hgap as [Hday Hgap].
    cbn [record_all fold_left last_day]. fold (record_all (record d s) ss).
    assert (Hstep : streak (user_stats (record d s)) = day_of s - first + 1).
    { unfold record. cbn [add_workout_to_history user_stats streak].
      rewrite update_streak_days, Hlast. fold (day_of s).
      destruct Hday as [-> | ->].
      - replace (day - day) with 0 by lia. cbn. exact Hstreak.
      - replace (day + 1 - day) with 1 by lia. cbn. lia. }
    apply IH; [exact Hgap | reflexivity | exact Hstep |].
    rewrite Hstep. unfold record.
    cbn [add_workout_to_history user_stats best_streak].
    fold (record d s).
    change (update_streak _ _) with (streak (user_stats (record d s))).
    rewrite Hstep, Hbest, Hstreak. lia.
Qed.

(** X3. The streak counts days, not sessions. When, from the default
    document, each call is made on the day of the call before it or on
    the day after, the streak is the number of days from the day of the
    first call to the day of the last, both included, however many calls
    a day has; the best streak equals it, and the last session date is
    the day of the last call. *)
Theorem streak_counts_days (exs : gmap string Exercise)
    (wks : gmap string Workout) (s : Session) (ss : list Session) :
  no_gap (day_of s) ss ->
  let stats := user_stats (record_all (default_data exs wks) (s :: ss)) in
  streak stats = last_day (day_of s) ss - day_of s + 1 /\
  best_streak stats = streak stats /\
  last_workout_date stats = Some (last_day (day_of s) ss).
Proof.
  intros Hgap. cbv zeta.
  cbn [record_all fold_left].
  fold (record_all (record (default_data exs wks) s) ss).
  apply no_gap_run; [exact Hgap | reflexivity | cbn; lia | reflexivity].
Qed.

Lemma streak_counts_days_witness :
  streak (user_stats
            (record_all (default_data ∅ ∅)
               (session_on (ymd2ord 2024 2 28) (Z2Qc 6) :: two_on_a_day)))
  = 3.
Proof.
  refine (proj1 (streak_counts_days ∅ ∅
                   (session_on (ymd2ord 2024 2 28) (Z2Qc 6)) two_on_a_day _)).
  cbn [no_gap two_on_a_day].
  split; [right; reflexivity|]. split; [left; reflexivity|].
  split; [right; reflexivity | exact I].
Defined.

End LedgerRuns.

(** ** The week, the chart and the history view *)

Section WeekMore.
Import Calendar DataManager Ledger Views.

(** X4. The start of the week that [get_weekly_stats] computes is a
    Monday at 00:00, not after the reference instant and less than seven
    days before it. *)
Theorem week_start_is_monday (now : Z) :
  weekday (week_start now) = 0 /\
  week_start now mod us_per_day = 0 /\
  week_start now <= now < week_start now + timedelta_days 7.
Proof.
  rewrite week_start_monday, weekday_strptime.
  unfold monday, weekday, weekday_of_day, strptime_ymd, timedelta_days,
    strftime_ymd.
  pose proof us_per_day_pos as Hpos.
  pose proof (Z.mod_pos_bound (now / us_per_day + 6) 7 ltac:(lia)) as Hwd.
  pose proof (Z.div_mod now us_per_day ltac:(lia)) as Hnow.
  pose proof (Z.mod_pos_bound now us_per_day Hpos) as Hrem.
  set (day := now / us_per_day) in *. set (w := (day + 6) mod 7) in *.
  split; [|split].
  - replace (day - w + 6) with (day + 6 + (-1) * w) by lia.
    pose proof (Z.div_mod (day + 6) 7 ltac:(lia)) as Hd. fold w in Hd.
    replace (day + 6 + -1 * w) with (((day + 6) / 7) * 7) by lia.
    apply Z.mod_mul. lia.
  - apply Z.mod_mul. lia.
  - nia.
Qed.

Lemma monday_le_today (now : Z) : monday now <= strftime_ymd now.
Proof. unfold monday. pose proof (weekday_of_day_range (strftime_ymd now)).
  unfold weekday. lia. Qed.

(** X8. A session that [add_workout_to_history] records on a day that
    is not before the Monday of the week of the reference instant, as
    when the statistics are read at the instant of the call, adds one to
    the session count of [get_weekly_stats], its minutes to the minutes
    of the week and one to the count of its weekday, the counts of the
    other days staying as they were; the goal progress is that of the
    new count.  The day of an instant is never before the Monday of its
    week. *)
Theorem recorded_session_counts (later now now' : Z) (w : string)
    (steps : list ExerciseStep) (minutes : Z) (calories : Qc) (d : Data) :
  monday later <= strftime_ymd now ->
  let before := get_weekly_stats later d in
  let after :=
    get_weekly_stats later
      (add_workout_to_history now now' w steps minutes calories d) in
  week_workouts after = week_workouts before + 1 /\
  week_minutes after = week_minutes before + minutes /\
  daily_breakdown after
  = alter (fun n => n + 1) (weekday now) (daily_breakdown before) /\
  goal_progress after
  = progress (week_workouts before + 1) (weekly_workouts (goals d)) /\
  monday now <= strftime_ymd now.
Proof.
  intros Hweek. cbv zeta. unfold get_weekly_stats.
  cbn [add_workout_to_history history goals week_workouts week_minutes
       daily_breakdown goal_progress].
  rewrite fold_left_app. cbn [fold_left]. rewrite week_step_since.
  unfold since_monday at 1 2 3 4. cbn [date].
  apply Z.leb_le in Hweek. rewrite Hweek.
  cbn [acc_workouts acc_minutes acc_breakdown duration_minutes].
  split; [reflexivity|]. split; [reflexivity|]. split; [reflexivity|].
  split; [reflexivity | apply monday_le_today].
Qed.

Lemma recorded_session_counts_witness :
  let now := Scenarios.sunday_night in
  let d := default_data ∅ ∅ in
  week_workouts
    (get_weekly_stats now (add_workout_to_history now now "T" [] 12 (Z2Qc 6) d))
  = week_workouts (get_weekly_stats now d) + 1.
Proof.
  refine (proj1 (recorded_session_counts Scenarios.sunday_night
                   Scenarios.sunday_night Scenarios.sunday_night "T" [] 12
                   (Z2Qc 6) (default_data ∅ ∅) _)).
  vm_compute. discriminate.
Defined.

Lemma count_on_weekday_cons (i : Z) (e : HistoryEntry) (h : list HistoryEntry) :
  count (sessions (on_weekday i) (e :: h))
  = count (sessions (on_weekday i) h)
    + (if weekday_of_day (date e) =? i then 1 else 0).
Proof.
  unfold sessions. cbn [List.filter]. unfold on_weekday at 1.
  destruct (weekday_of_day (date e) =? i); [apply count_cons | lia].
Qed.

(** The counts of the seven days add up to the count of all. *)
Lemma weekdays_partition (h : list HistoryEntry) :
  sum_Z ((fun i => count (sessions (on_weekday i) h)) <$> [0; 1; 2; 3; 4; 5; 6])
  = count h.
Proof.
  induction h as [|e h IH]; [reflexivity|].
  rewrite count_cons, <- IH. cbn [fmap list_fmap].
  rewrite !sum_Z_cons, !count_on_weekday_cons.
  pose proof (weekday_of_day_range (date e)) as Hrange.
  set (w := weekday_of_day (date e)) in *.
  assert (Hw : w = 0 \/ w = 1 \/ w = 2 \/ w = 3 \/ w = 4 \/ w = 5 \/ w = 6)
    by lia.
  unfold sum_Z; cbn [foldr].
  destruct Hw as [->|[->|[->|[->|[->|[->| ->]]]]]]; cbn [Z.eqb Pos.eqb]; lia.
Qed.

(** X10. The weekly chart always has its seven values: no key of the
    daily breakdown is missing, whatever the history.  None of the
    values is negative and they add up to the session count of the
    week. *)
Theorem chart_values_sum (now : Z) (d : Data) :
  exists values : list Z,
    chart_values (get_weekly_stats now d) = Some values /\
    length values = 7%nat /\
    sum_Z values = week_workouts (get_weekly_stats now d) /\
    Forall (fun v => 0 <= v) values.
Proof.
  pose proof (week_counts now d) as H. cbv zeta in H.
  destruct H as (Hw & Hb).
  set (kept := sessions (since_monday now) (history d)) in *.
  exists ((fun i => count (sessions (on_weekday i) kept))
            <$> [0; 1; 2; 3; 4; 5; 6]).
  split; [|split; [reflexivity|split]].
  - unfold chart_values. cbn [mapM].
    rewrite !Hb by lia. reflexivity.
  - rewrite Hw. apply weekdays_partition.
  - repeat constructor; unfold count; lia.
Qed.






Lemma history_rows_newest (d : Data) :
  history_rows d
  = (fun e => (date e, workout_name e, duration_minutes e, calories_burned e))
      <$> take 50 (rev (history d)).
Proof. unfold history_rows. now rewrite firstn_rev. Qed.

(** X11. The history view shows the last 50 entries, the newest first.
    After [add_workout_to_history] its rows are the row of the new entry
    followed by the rows there were, cut to 50; and the view has as many
    rows as the history has entries, 50 at most. *)
Theorem history_rows_recorded (now now' : Z) (w : string)
    (steps : list ExerciseStep) (minutes : Z) (calories : Qc) (d : Data) :
  history_rows (add_workout_to_history now now' w steps minutes calories d)
  = take 50 ((strftime_ymd now, w, minutes, round1 calories) :: history_rows d)
  /\ length (history_rows d) = Nat.min (length (history d)) 50.
Proof.
  split.
  - rewrite !history_rows_newest. cbn [add_workout_to_history history].
    rewrite rev_app_distr. cbn [rev app firstn fmap list_fmap date
      workout_name duration_minutes calories_burned].
    f_equal. rewrite <- fmap_take. f_equal.
    rewrite take_take. f_equal.
  - rewrite history_rows_newest, length_fmap, length_take, length_rev. lia.
Qed.

End WeekMore.

(** ** The range of the goal progress *)

Section Progress.
Import Calendar DataManager Ledger.

(** The progress as a fraction. *)
Lemma progress_value (c g : Z) (p : positive) :
  Z.max g 1 = Z.pos p ->
  (this (progress c g) == (100 * c) # p)%Q.
Proof.
  intros Hp. unfold progress, Qcdiv, Qcmult, Qcinv, Z2Qc. rewrite Hp.
  cbn [this Q2Qc]. rewrite !Qred_correct.
  setoid_rewrite (Qmake_Qdiv (100 * c) p). rewrite inject_Z_mult.
  unfold Qdiv. ring.
Qed.

(** X7. The goal progress of [get_weekly_stats] is never negative and
    is not capped at 100: it is at least 100 exactly when the sessions
    counted reach [max (weekly goal) 1], and at most 100 exactly when
    they do not exceed it.  The sessions counted are between 0 and the
    length of the history. *)
Theorem weekly_progress_range (now : Z) (d : Data) :
  let stats := get_weekly_stats now d in
  let goal := Z.max (weekly_workouts (goals d)) 1 in
  (0 <= goal_progress stats)%Qc /\
  ((Z2Qc 100 <= goal_progress stats)%Qc <-> goal <= week_workouts stats) /\
  ((goal_progress stats <= Z2Qc 100)%Qc <-> week_workouts stats <= goal) /\
  0 <= week_workouts stats <= Z.of_nat (length (history d)).
Proof.
  cbv zeta.
  change (goal_progress (get_weekly_stats now d))
    with (progress (week_workouts (get_weekly_stats now d))
                   (weekly_workouts (goals d))).
  assert (Hcount : 0 <= week_workouts (get_weekly_stats now d)
                   <= Z.of_nat (length (history d))).
  { unfold get_weekly_stats. cbn [week_workouts].
    pose proof (week_loop now (history d) week_acc0) as H. cbv zeta in H.
    destruct H as (-> & _). cbn [week_acc0 acc_workouts].
    unfold count, sessions.
    pose proof (filter_length_le (since_monday now) (history d)). lia. }
  set (c := week_workouts (get_weekly_stats now d)) in *.
  destruct (Z.max (weekly_workouts (goals d)) 1) as [|p|p] eqn:Hp; try lia.
  pose proof (progress_value c (weekly_workouts (goals d)) p Hp) as Hv.
  assert (H100 : (this (Z2Qc 100) == 100 # 1)%Q)
    by (unfold Z2Qc; cbn [this Q2Qc]; now rewrite Qred_correct).
  unfold Qcle. rewrite Hv, H100.
  change (this 0%Qc) with 0%Q.
  unfold Qle. cbn [Qnum Qden].
  split; [lia|]. split; [lia|]. split; [lia | exact Hcount].
Qed.

End Progress.

(** ** The countdown under pause, resume and stop *)

Section CountdownMore.
Import ExerciseTimer CountdownInvariant.

Lemma countdown_invariant (n : Z) (es : list Event) :
  exists k : nat,
    on_track n k (play (started n) es) \/ closed n k (play (started n) es).
Proof.
  induction es as [|e es IH] using rev_ind.
  - exists 0%nat. left. split; [reflexivity|]. cbn. lia.
  - rewrite play_snoc. destruct IH as [k IH].
    destruct (play (started n) es) as [[r p s] pt log].
    destruct e.
    + destruct IH as [[Hlog Hpt]|[[x Hlog] Hpt]]; cbn in Hlog, Hpt.
      * destruct pt; cbn [react thread_step fields point delivered running
                          paused seconds_remaining from_option].
        -- exists k. left. destruct (r && (0 <? s)) eqn:Hc;
             (split; [cbn; now rewrite app_nil_r|]); cbn; [|exact I].
           apply andb_true_iff in Hc. destruct Hc as [_ Hc].
           apply Z.ltb_lt in Hc. lia.
        -- exists k. left. destruct (negb p);
             (split; [cbn; now rewrite app_nil_r|]); cbn; exact Hpt.
        -- exists k. left. split; [cbn; now rewrite app_nil_r|]. exact Hpt.
        -- exists k. left. destruct (negb p && r);
             (split; [cbn; now rewrite app_nil_r|]); cbn; [exact Hpt|lia].
        -- exists k. left. split; [cbn; now rewrite app_nil_r|]. cbn. lia.
        -- destruct Hpt as [Hs Hpos]. destruct r.
           ++ exists (S k). left. split; [|cbn; lia]. cbn.
              rewrite (take_S_r _ _ (s, true)); [now rewrite Hlog|].
              rewrite ticks_lookup by lia. do 3 f_equal. lia.
           ++ exists k. right. split; [exists s; cbn; now rewrite Hlog|].
              right. cbn. auto.
        -- exists k. left. split; [cbn; now rewrite app_nil_r|]. cbn. lia.
        -- exists k. left. destruct r;
             (split; [cbn; now rewrite app_nil_r|]); exact I.
        -- exists k. left. split; [cbn; now rewrite app_nil_r|]. exact I.
        -- exists k. right. split; [exists 0; cbn; now rewrite Hlog|].
           left. reflexivity.
        -- exists k. left. split; [cbn; now rewrite app_nil_r|]. exact I.
      * exists k. right.
        destruct Hpt as [->|[Hr [->| ->]]]; cbn in *; try subst r;
          cbn [react thread_step fields point delivered running paused
               seconds_remaining from_option andb];
          (split; [exists x; cbn; now rewrite app_nil_r|]); cbn; auto.
    + exists k. destruct IH as [[Hlog Hpt]|[Hlog Hpt]]; [left|right];
        (split; [exact Hlog|]); cbn in *; [destruct pt; exact Hpt | exact Hpt].
    + exists k. destruct IH as [[Hlog Hpt]|[Hlog Hpt]]; [left|right];
        (split; [exact Hlog|]); cbn in *; [destruct pt; exact Hpt | exact Hpt].
    + exists k. destruct IH as [[Hlog Hpt]|[Hlog Hpt]]; [left|right];
        (split; [exact Hlog|]); cbn in *; [destruct pt; exact Hpt|].
      destruct Hpt as [?|[_ ?]]; auto.
Qed.

(** X12. Whatever the caller does to one countdown, that is for every
    interleaving of [pause], [resume] and [stop] with the statements of
    the thread, the callbacks delivered are the first ticks of the
    undisturbed countdown, [(seconds - 1, True)], [(seconds - 2, True)]
    and so on, in order and without a gap, followed by at most one
    callback that carries the flag [False], which is then the last. *)
Theorem callbacks_follow_countdown (seconds : Z) (es : list Event) :
  exists (k : nat) (last : list (Z * bool)),
    delivered (play (started seconds) es)
    = take k (ticks (Z.to_nat seconds)) ++ last /\
    (last = [] \/ exists x : Z, last = [(x, false)]).
Proof.
  destruct (countdown_invariant seconds es) as [k [[Hlog _]|[[x Hlog] _]]].
  - exists k, []. rewrite app_nil_r. auto.
  - exists k, [(x, false)]. eauto.
Qed.

(** While the timer is paused a waiting thread only waits. *)
Lemma paused_holds (s : Z) (log : list (Z * bool)) (m : nat) :
  0 < s ->
  forall pt : Point, waiting pt = true ->
  exists pt' : Point,
    waiting pt' = true /\
    play {| fields := {| running := true; paused := true;
                         seconds_remaining := s |};
            point := pt; delivered := log |} (repeat Run m)
    = {| fields := {| running := true; paused := true;
                      seconds_remaining := s |};
         point := pt'; delivered := log |}.
Proof.
  intros Hs. induction m as [|m IH]; intros pt Hw.
  - exists pt. auto.
  - cbn [repeat play fold_left].
    assert (Hstep : exists pt1, waiting pt1 = true /\
              react {| fields := {| running := true; paused := true;
                                    seconds_remaining := s |};
                       point := pt; delivered := log |} Run
              = {| fields := {| running := true; paused := true;
                                seconds_remaining := s |};
                   point := pt1; delivered := log |}).
    { destruct pt; try discriminate Hw;
        cbn [react thread_step fields point delivered running paused
             seconds_remaining andb negb from_option];
        try (destruct (Z.ltb_spec 0 s); [|lia]);
        rewrite app_nil_r; eexists; (split; [|reflexivity]); reflexivity. }
    destruct Hstep as (pt1 & Hw1 & ->). apply (IH pt1 Hw1).
Qed.

(** A waiting thread of a timer that runs reaches the end of its
    countdown. *)
Lemma waiting_completes (s : Z) (log : list (Z * bool)) (pt : Point) :
  0 < s -> waiting pt = true ->
  exists r : nat,
    play {| fields := {| running := true; paused := false;
                         seconds_remaining := s |};
            point := pt; delivered := log |} (repeat Run r)
    = {| fields := {| running := false; paused := false;
                      seconds_remaining := 0 |};
         point := Finished;
         delivered := log ++ ticks (Z.to_nat s) ++ [(0, false)] |}.
Proof.
  intros Hs Hw.
  assert (Hmin : Z.min s 0 = 0) by lia.
  assert (Hmin' : Z.min (s - 1) 0 = 0) by lia.
  assert (Hticks : forall l : list (Z * bool),
            (log ++ [(s - 1, true)]) ++ ticks (Z.to_nat (s - 1)) ++ l
            = log ++ ticks (Z.to_nat s) ++ l).
  { intros l. replace (Z.to_nat s) with (S (Z.to_nat (s - 1))) by lia.
    rewrite ticks_snoc, <- app_assoc. cbn [app].
    now replace (Z.of_nat (Z.to_nat (s - 1))) with (s - 1) by lia. }
  pose proof (countdown_runs (Z.to_nat s) s log eq_refl) as Hfull.
  pose proof (countdown_runs (Z.to_nat (s - 1)) (s - 1)
                (log ++ [(s - 1, true)]) eq_refl) as Hrest.
  rewrite Hmin in Hfull. rewrite Hmin', Hticks in Hrest.
  destruct pt; try discriminate Hw.
  - eexists. exact Hfull.
  - exists (5 + (6 * Z.to_nat (s - 1) + 4))%nat.
    rewrite runs_add, play_app. cbn [repeat play fold_left].
    cbn [react thread_step fields point delivered running paused
         seconds_remaining andb negb from_option].
    rewrite !app_nil_r. exact Hrest.
  - exists (4 + (6 * Z.to_nat (s - 1) + 4))%nat.
    rewrite runs_add, play_app. cbn [repeat play fold_left].
    cbn [react thread_step fields point delivered running paused
         seconds_remaining andb negb from_option].
    rewrite !app_nil_r. exact Hrest.
  - exists (3 + (6 * Z.to_nat (s - 1) + 4))%nat.
    rewrite runs_add, play_app. cbn [repeat play fold_left].
    cbn [react thread_step fields point delivered running paused
         seconds_remaining andb negb from_option].
    rewrite !app_nil_r. exact Hrest.
  - exists (1 + (6 * Z.to_nat s + 4))%nat.
    rewrite runs_add, play_app. cbn [repeat play fold_left].
    cbn [react thread_step fields point delivered running paused
         seconds_remaining andb negb from_option].
    rewrite !app_nil_r. exact Hfull.
Qed.

(** X13. A pause loses no tick. When [pause] is called while the thread
    of a running timer with seconds left waits, then however many
    statements the thread executes before [resume], the fields stay as
    [pause] left them and no callback is delivered; and after [resume]
    the thread delivers every remaining tick and the terminal callback,
    and ends. *)
Theorem pause_loses_no_tick (s : Z) (log : list (Z * bool)) (pt : Point)
    (m : nat) :
  0 < s -> waiting pt = true ->
  let c := {| fields := {| running := true; paused := false;
                           seconds_remaining := s |};
              point := pt; delivered := log |} in
  let held := play c (Pause :: repeat Run m) in
  fields held = pause (fields c) /\
  delivered held = log /\
  exists r : nat,
    play c (Pause :: repeat Run m ++ Resume :: repeat Run r)
    = {| fields := {| running := false; paused := false;
                      seconds_remaining := 0 |};
         point := Finished;
         delivered := log ++ ticks (Z.to_nat s) ++ [(0, false)] |}.
Proof.
  intros Hs Hw. cbv zeta.
  destruct (paused_holds s log m Hs pt Hw) as (pt' & Hw' & Hheld).
  assert (Hpaused : play {| fields := {| running := true; paused := false;
                                         seconds_remaining := s |};
                            point := pt; delivered := log |}
                      (Pause :: repeat Run m)
                    = {| fields := {| running := true; paused := true;
                                      seconds_remaining := s |};
                         point := pt'; delivered := log |}).
  { cbn [play fold_left]. exact Hheld. }
  split; [now rewrite Hpaused|]. split; [now rewrite Hpaused|].
  destruct (waiting_completes s log pt' Hs Hw') as [r Hr].
  exists r. rewrite app_comm_cons, play_app, Hpaused.
  cbn [play fold_left]. exact Hr.
Qed.

Lemma pause_loses_no_tick_witness :
  exists r : nat,
    play (started 3) (Pause :: repeat Run 7 ++ Resume :: repeat Run r)
    = {| fields := {| running := false; paused := false;
                      seconds_remaining := 0 |};
         point := Finished;
         delivered := [(2, true); (1, true); (0, true); (0, false)] |}.
Proof.
  exact (proj2 (proj2 (pause_loses_no_tick 3 [] AtWhile 7 eq_refl eq_refl))).
Defined.

(** X14. After [stop], wherever the thread stands in [_run], it ends
    within five statements, with the flags running and paused [False].
    It delivers at most one more callback, which carries the flag
    [False]; it delivers none when it was waiting. *)
Theorem stop_ends_countdown (c : Countdown) :
  exists last : list (Z * bool),
    play c (Stop :: repeat Run 5)
    = {| fields := {| running := false; paused := false;
                      seconds_remaining :=
                        match point c with
                        | AtDecrement => seconds_remaining (fields c) - 1
                        | _ => seconds_remaining (fields c)
                        end |};
         point := Finished; delivered := delivered c ++ last |} /\
    (last = [] \/ exists x : Z, last = [(x, false)]) /\
    (waiting (point c) = true -> last = []).
Proof.
  destruct c as [[r p s] pt log].
  destruct pt; cbn; rewrite ?app_nil_r;
    first [ exists []; rewrite app_nil_r; split; [reflexivity|];
            split; [now left | reflexivity]
          | eexists [_]; rewrite <- ?app_assoc; split; [reflexivity|];
            split; [right; eauto | discriminate] ].
Qed.

End CountdownMore.

(** ** One call of [_next_exercise] *)

Section NextExercise.
Import FitnessApp Outcome.



End NextExercise.

(** ** A whole workout *)

Section WorkoutRuns.
Import ExerciseTimer FitnessApp Ledger Plan Scenarios.

Lemma run_add (r : Readings) (m n : nat) : forall a : App,
  run r (m + n) a = run r m a ≫= run r n.
Proof.
  induction m as [|m IH]; intros a; [reflexivity|].
  cbn [Nat.add run]. destruct (turn r a) as [a'|]; [apply IH | reflexivity].
Qed.

Lemma Z2Qc_succ (n : Z) : Z2Qc (n + 1) = (1 + Z2Qc n)%Qc.
Proof.
  apply Qc_is_canon. unfold Z2Qc. cbn [Qcplus this Q2Qc].
  rewrite !Qred_correct. rewrite inject_Z_plus. ring.
Qed.

Lemma next_exercise_skip (r : Readings) (a : App) (w : Workout)
    (st : ExerciseStep) :
  current_workout a = Some w ->
  exercises w !! current_exercise_index a = Some st ->
  sets st < current_set a ->
  _next_exercise r a = _next_exercise r (move_on a).
Proof.
  intros Hw Hst Hk. unfold _next_exercise. rewrite move_on_workout, Hw.
  pose proof (lookup_lt_Some _ _ _ Hst) as Hlt.
  destruct (length (exercises w) - current_exercise_index a)%nat as [|n] eqn:Hn;
    [lia|].
  cbn [next_exercise_within]. rewrite Hw, Hst.
  apply Z.ltb_lt in Hk. rewrite Hk.
  replace (length (exercises w) - current_exercise_index (move_on a))%nat
    with n by (cbn; lia).
  reflexivity.
Qed.

Lemma next_exercise_present (r : Readings) (a : App) (w : Workout)
    (st : ExerciseStep) :
  current_workout a = Some w ->
  exercises w !! current_exercise_index a = Some st ->
  current_set a <= sets st ->
  _next_exercise r a = Some (present st a).
Proof.
  intros Hw Hst Hk. unfold _next_exercise. rewrite Hw.
  apply Z.ltb_ge in Hk.
  destruct (length (exercises w) - current_exercise_index a)%nat;
    cbn [next_exercise_within]; now rewrite Hw, Hst, Hk.
Qed.

Lemma next_exercise_done (r : Readings) (a : App) (w : Workout) :
  current_workout a = Some w ->
  exercises w !! current_exercise_index a = None ->
  _next_exercise r a = Some (_complete_workout r a).
Proof.
  intros Hw Hst. unfold _next_exercise. rewrite Hw.
  destruct (length (exercises w) - current_exercise_index a)%nat;
    cbn [next_exercise_within]; now rewrite Hw, Hst.
Qed.

(** The next turn of a run, computed. *)
Ltac one_turn :=
  match goal with
  | |- context [run ?r (S ?n) ?a] =>
      change (run r (S n) a) with (turn r a ≫= run r n);
      let t := eval lazy -[Z.ltb Z.sub Z.min Z.add Qcplus Qcmult Z2Qc Q2Qc
                            calories_of icon_of] in (turn r a) in
      change (turn r a) with t;
      cbn [mbind option_bind]
  end.

(** One second of a rest: six statements of the thread and the call of
    [update] for its callback. *)
Lemma rest_tick (r : Readings) (d : Data) (s : Z) (cw : option Workout)
    (idx : nat) (k : Z) (start : option Z) (b : Qc) (v : string)
    (log : list Status) :
  0 < s ->
  run r 7 {| data_manager := d;
             timer := {| running := true; paused := false;
                         seconds_remaining := s |};
             threads := [AtWhile]; current_workout := cw;
             current_exercise_index := idx; current_set := k;
             workout_start_time := start; burned := b; workout_var := v;
             after_queue := []; status_log := log |}
  = Some {| data_manager := d;
            timer := {| running := true; paused := false;
                        seconds_remaining := s - 1 |};
            threads := [AtWhile]; current_workout := cw;
            current_exercise_index := idx; current_set := k;
            workout_start_time := start; burned := b; workout_var := v;
            after_queue := []; status_log := log |}.
Proof.
  intros Hs. apply Z.ltb_lt in Hs.
  one_turn. rewrite Hs. cbn [mbind option_bind]. do 6 one_turn. reflexivity.
Qed.

(** A whole rest: the thread runs to its end and the terminal callback
    waits in the queue. *)
Lemma rest_countdown (r : Readings) (d : Data) (cw : option Workout)
    (idx : nat) (k : Z) (start : option Z) (b : Qc) (v : string)
    (log : list Status) (n : nat) : forall s : Z,
  Z.to_nat s = n ->
  run r (7 * n + 4)
      {| data_manager := d;
         timer := {| running := true; paused := false;
                     seconds_remaining := s |};
         threads := [AtWhile]; current_workout := cw;
         current_exercise_index := idx; current_set := k;
         workout_start_time := start; burned := b; workout_var := v;
         after_queue := []; status_log := log |}
  = Some {| data_manager := d;
            timer := {| running := false; paused := false;
                        seconds_remaining := Z.min s 0 |};
            threads := []; current_workout := cw;
            current_exercise_index := idx; current_set := k;
            workout_start_time := start; burned := b; workout_var := v;
            after_queue := [Update 0 false]; status_log := log |}.
Proof.
  induction n as [|n IH]; intros s Hs.
  - assert (Hle : (0 <? s) = false) by (apply Z.ltb_ge; lia).
    change (7 * 0 + 4)%nat with 4%nat.
    one_turn. rewrite Hle. cbn [mbind option_bind]. do 3 one_turn.
    cbn [run]. do 3 f_equal. lia.
  - replace (7 * S n + 4)%nat with (7 + (7 * n + 4))%nat by lia.
    rewrite run_add, rest_tick by lia. cbn [mbind option_bind].
    rewrite IH by lia. do 3 f_equal. lia.
Qed.

(** One set: it is shown and credited, the rest is shown and runs to its
    end, and [_next_exercise] is called for what follows. *)
Lemma one_set (r : Readings) (d : Data) (t : Timer) (w : Workout) (idx : nat)
    (k start : Z) (b : Qc) (v : string) (log : list Status)
    (st : ExerciseStep) (turns : nat) :
  exercises w !! idx = Some st ->
  k <= sets st ->
  (_next_exercise r (between_sets d t w idx k start b v log)
     ≫= run r (rest_turns (rest st) + turns))
  = (_next_exercise r
       (between_sets d
          {| running := false; paused := false;
             seconds_remaining := Z.min (rest st) 0 |}
          w idx (k + 1) start (b + set_calories d st)%Qc v
          (log ++ [ShowSet (icon_of d (name st)) (name st) k (sets st)
                           (reps st); ShowRest]))
       ≫= run r turns).
Proof.
  intros Hst Hk.
  rewrite (next_exercise_present r _ w st) by (try reflexivity; assumption).
  cbn [mbind option_bind].
  replace (rest_turns (rest st) + turns)%nat
    with (1 + ((7 * Z.to_nat (rest st) + 4) + S turns))%nat
    by (unfold rest_turns; lia).
  rewrite (run_add r 1). one_turn. cbn [run mbind option_bind].
  rewrite run_add, rest_countdown by reflexivity.
  cbn [mbind option_bind]. rewrite <- (app_assoc log).
  reflexivity.
Qed.

Lemma sets_from_cons (d : Data) (st : ExerciseStep) (k : Z) :
  k <= sets st ->
  sets_from d st k
  = [ShowSet (icon_of d (name st)) (name st) k (sets st) (reps st); ShowRest]
      ++ sets_from d st (k + 1).
Proof.
  intros Hk. unfold sets_from. rewrite seqZ_cons by lia. cbn [flat_map].
  do 3 f_equal; lia.
Qed.

(** The sets of one step that are still to do, and then the call of
    [_next_exercise] that moves to the next step. *)
Lemma step_runs (r : Readings) (d : Data) (w : Workout) (idx : nat)
    (start : Z) (v : string) (st : ExerciseStep) :
  exercises w !! idx = Some st ->
  forall (j : nat) (k : Z) (t : Timer) (b : Qc) (log : list Status),
    Z.to_nat (sets st - k + 1) = j ->
    exists t' : Timer, forall turns : nat,
      (_next_exercise r (between_sets d t w idx k start b v log)
         ≫= run r (j * rest_turns (rest st) + turns))
      = (_next_exercise r
           (between_sets d t' w (S idx) 1 start
              (b + Z2Qc (Z.of_nat j) * set_calories d st)%Qc v
              (log ++ sets_from d st k))
           ≫= run r turns).
Proof.
  intros Hst. induction j as [|j IH]; intros k t b log Hj.
  - exists t. intros turns. cbn [Nat.mul Nat.add].
    rewrite (next_exercise_skip r _ w st)
      by (reflexivity || exact Hst || (cbn; lia)).
    unfold sets_from. rewrite seqZ_nil by lia. cbn [flat_map].
    rewrite app_nil_r.
    replace (b + Z2Qc (Z.of_nat 0) * set_calories d st)%Qc with b
      by (change (Z2Qc (Z.of_nat 0)) with 0%Qc; ring).
    reflexivity.
  - destruct (IH (k + 1) {| running := false; paused := false;
                            seconds_remaining := Z.min (rest st) 0 |}
                (b + set_calories d st)%Qc
                (log ++ [ShowSet (icon_of d (name st)) (name st) k (sets st)
                                 (reps st); ShowRest])) as [t' Ht']; [lia|].
    exists t'. intros turns.
    replace (S j * rest_turns (rest st) + turns)%nat
      with (rest_turns (rest st) + (j * rest_turns (rest st) + turns))%nat
      by lia.
    rewrite (one_set r d t w idx k start b v log st) by (assumption || lia).
    rewrite Ht'. rewrite <- app_assoc, <- sets_from_cons by lia.
    replace (b + set_calories d st + Z2Qc (Z.of_nat j) * set_calories d st)%Qc
      with (b + Z2Qc (Z.of_nat (S j)) * set_calories d st)%Qc;
      [reflexivity|].
    rewrite Nat2Z.inj_succ. unfold Z.succ. rewrite Z2Qc_succ. ring.
Qed.

Lemma workout_turns_cons (st : ExerciseStep) (steps : list ExerciseStep) :
  workout_turns (st :: steps)
  = (Z.to_nat (sets st) * rest_turns (rest st) + workout_turns steps)%nat.
Proof. reflexivity. Qed.

Lemma workout_calories_cons (d : Data) (st : ExerciseStep)
    (steps : list ExerciseStep) :
  workout_calories d (st :: steps)
  = (Z2Qc (Z.max (sets st) 0) * set_calories d st
     + workout_calories d steps)%Qc.
Proof. reflexivity. Qed.

(** The steps still to do, one after the other, and then the end of the
    workout. *)
Lemma workout_from (r : Readings) (d : Data) (w : Workout) (start : Z)
    (v : string) :
  forall (todo done : list ExerciseStep) (t : Timer) (b : Qc)
         (log : list Status),
    exercises w = done ++ todo ->
    exists t' : Timer,
      (_next_exercise r (between_sets d t w (length done) 1 start b v log)
         ≫= run r (workout_turns todo))
      = Some (_complete_workout r
                (between_sets d t' w (length (exercises w)) 1 start
                   (b + workout_calories d todo)%Qc v
                   (log ++ script d todo))).
Proof.
  induction todo as [|st todo IH]; intros done t b log Hw.
  - exists t. rewrite app_nil_r in Hw.
    rewrite (next_exercise_done r _ w)
      by (reflexivity || (cbn; apply lookup_ge_None; rewrite Hw; lia)).
    cbn [workout_turns fmap list_fmap sum_list sum_list_with run mbind
         option_bind script flat_map].
    rewrite app_nil_r, Hw.
    replace (b + workout_calories d [])%Qc with b
      by (unfold workout_calories; cbn [fmap list_fmap sum_Qc foldr]; ring).
    reflexivity.
  - assert (Hst : exercises w !! length done = Some st)
      by (rewrite Hw; apply list_lookup_middle; reflexivity).
    destruct (step_runs r d w (length done) start v st Hst
                (Z.to_nat (sets st)) 1 t b log) as [t1 H1];
      [f_equal; lia|].
    destruct (IH (done ++ [st]) t1
                (b + Z2Qc (Z.of_nat (Z.to_nat (sets st)))
                     * set_calories d st)%Qc
                (log ++ sets_from d st 1)) as [t' Ht'];
      [now rewrite <- app_assoc|].
    exists t'. rewrite workout_turns_cons, H1.
    rewrite length_app in Ht'. cbn [length] in Ht'.
    rewrite Nat.add_1_r in Ht'. rewrite Ht'.
    rewrite workout_calories_cons.
    replace (Z.of_nat (Z.to_nat (sets st))) with (Z.max (sets st) 0) by lia.
    cbn [script flat_map]. rewrite <- app_assoc, Qcplus_assoc.
    reflexivity.
Qed.

Lemma script_sets (d : Data) (steps : list ExerciseStep) :
  sets_shown (script d steps)
  = sum_list ((fun st => Z.to_nat (sets st)) <$> steps) /\
  rests_shown (script d steps) = sets_shown (script d steps).
Proof.
  assert (Hfrom : forall st (j : nat) k, Z.to_nat (sets st - k + 1) = j ->
            sets_shown (sets_from d st k) = j /\
            rests_shown (sets_from d st k) = j).
  { intros st. induction j as [|j IH]; intros k Hj.
    - unfold sets_from. rewrite seqZ_nil by lia. now split.
    - rewrite sets_from_cons by lia.
      destruct (IH (k + 1)) as [Hs Hr]; [lia|].
      unfold sets_shown, rests_shown in *. cbn [app].
      rewrite !filter_cons. cbn [is_set is_rest].
      repeat case_decide; try discriminate; try congruence.
      cbn [length]. now rewrite Hs, Hr. }
  assert (Happ : forall l l' : list Status,
            sets_shown (l ++ l') = (sets_shown l + sets_shown l')%nat /\
            rests_shown (l ++ l') = (rests_shown l + rests_shown l')%nat).
  { intros l l'. unfold sets_shown, rests_shown.
    now rewrite !filter_app, !length_app. }
  induction steps as [|st steps [IHs IHr]]; [now split|].
  change (script d (st :: steps))
    with (sets_from d st 1 ++ script d steps).
  rewrite fmap_cons. cbn [sum_list sum_list_with].
  destruct (Happ (sets_from d st 1) (script d steps)) as [-> ->].
  destruct (Hfrom st (Z.to_nat (sets st)) 1) as [-> ->]; [f_equal; lia|].
  rewrite IHr, IHs. now split.
Qed.

(** X17. A workout of any list of steps, started by [_start_workout]
    from an application at rest and left to itself, comes to rest for
    good after [workout_turns] turns with no workout under way.  It has
    shown, for each step in order, each of its sets 1, 2, ... up to the
    number of sets of the step, each followed by a rest (a step with no
    set is passed over), and then the idle text; as many rests as sets
    are shown.  The calories burned are the sum over the steps of sets
    times repetitions times the calories of the exercise for a
    repetition, and [add_workout_to_history] has been called once, with
    these calories, the steps of the workout and a duration of at least
    one minute. *)
Theorem workout_runs (r : Readings) (a : App) (w : Workout) :
  workout_var a <> "" ->
  data_workouts (data_manager a) !! workout_var a = Some w ->
  at_rest a = true ->
  let d := data_manager a in
  let steps := exercises w in
  exists a' : App,
    (_start_workout r a ≫= run r (workout_turns steps)) = Some a' /\
    at_rest a' = true /\
    (forall k : nat, run r k a' = Some a') /\
    current_workout a' = None /\
    status_log a' = status_log a ++ script d steps ++ [ShowIdle] /\
    sets_shown (script d steps)
    = sum_list ((fun st => Z.to_nat (sets st)) <$> steps) /\
    rests_shown (script d steps) = sets_shown (script d steps) /\
    burned a' = workout_calories d steps /\
    data_manager a'
    = DataManager.add_workout_to_history (at_date r) (at_stamp r)
        (workout_var a) steps
        (Z.max (elapsed_minutes (at_complete r) (at_start r)) 1)
        (workout_calories d steps) d.
Proof.
  intros Hname Hlookup Hrest. cbv zeta.
  apply at_rest_empty in Hrest as [Hq Ht].
  destruct a as [d t ps cw idx set start cal var q log].
  cbn in Hname, Hlookup, Hq, Ht. subst q ps.
  cbn [data_manager status_log workout_var].
  destruct (workout_from r d w (at_start r) var (exercises w) [] t 0%Qc log
              eq_refl) as [t' Hrun].
  assert (Hzero : (0 + workout_calories d (exercises w))%Qc
                  = workout_calories d (exercises w)) by ring.
  rewrite Hzero in Hrun.
  eexists. split.
  { unfold _start_workout. cbn [workout_var data_manager].
    apply String.eqb_neq in Hname. rewrite Hname, Hlookup. exact Hrun. }
  split; [reflexivity|].
  split; [intros k; now apply run_at_rest|].
  split; [reflexivity|].
  split; [cbn; now rewrite <- app_assoc|].
  split; [apply script_sets|]. split; [apply script_sets|].
  split; reflexivity.
Qed.

Lemma workout_runs_witness :
  exists a' : App,
    (_start_workout readings_A app_A ≫= run readings_A 82) = Some a' /\
    status_log a'
    = [ShowSet "arm" "A" 1 2 10; ShowRest; ShowSet "arm" "A" 2 2 10;
       ShowRest; ShowIdle].
Proof.
  destruct (workout_runs readings_A app_A (template_A "two sets of A"))
    as (a' & Hrun & _ & _ & _ & Hlog & _);
    [discriminate | reflexivity | reflexivity |].
  exists a'. split; [exact Hrun | exact Hlog].
Defined.

End WorkoutRuns.

(** ** The buttons of the workout tab *)

Section Buttons.
Import Calendar ExerciseTimer FitnessApp Scenarios.





(** X21. The minutes [_complete_workout] records are between 1 and
    1439.  They are the whole minutes elapsed since the start, or 1 when
    less than a minute has elapsed, for a workout of less than a day;
    the whole days of a longer workout are not counted: completed any
    number of days later, the same workout records the same minutes. *)
Theorem recorded_duration (r : Readings) (a : App) (start : Z) :
  workout_start_time a = Some start ->
  let minutes_of (completed : Z) : option Z :=
    duration_minutes
      <$> last (history (data_manager
                  (_complete_workout
                     {| at_start := at_start r; at_complete := completed;
                        at_date := at_date r; at_stamp := at_stamp r |} a))) in
  (exists m : Z, minutes_of (at_complete r) = Some m /\ 1 <= m <= 1439) /\
  (0 <= at_complete r - start < us_per_day ->
   minutes_of (at_complete r)
   = Some (Z.max ((at_complete r - start) / (60 * us_per_second)) 1)) /\
  forall days : Z,
    minutes_of (at_complete r + timedelta_days days)
    = minutes_of (at_complete r).
Proof.
  intros Hstart. cbv zeta. unfold _complete_workout. rewrite Hstart.
  cbn [data_manager history DataManager.add_workout_to_history at_complete].
  rewrite !last_snoc. cbn [fmap option_fmap option_map duration_minutes].
  assert (Hday : 0 < us_per_day) by reflexivity.
  assert (Hsec : 0 < us_per_second) by reflexivity.
  unfold elapsed_minutes, td_seconds.
  split; [|split].
  - eexists. split; [reflexivity|].
    pose proof (Z.mod_pos_bound (at_complete r - start) us_per_day Hday) as Hm.
    assert (Hs : 0 <= (at_complete r - start) mod us_per_day / us_per_second
                 < 86400).
    { split; [apply Z.div_pos; lia|].
      apply Z.div_lt_upper_bound; [lia|].
      pose proof (eq_refl : us_per_day = 86400 * us_per_second). lia. }
    assert (Hmin : 0 <= (at_complete r - start) mod us_per_day
                        / us_per_second / 60 < 1440).
    { split; [apply Z.div_pos; lia|].
      apply Z.div_lt_upper_bound; lia. }
    lia.
  - intros Hrange. rewrite Z.mod_small by lia.
    rewrite Z.div_div by lia. now rewrite (Z.mul_comm us_per_second 60).
  - intros days. unfold timedelta_days.
    replace (at_complete r + days * us_per_day - start)
      with (at_complete r - start + days * us_per_day) by lia.
    rewrite Z.mod_add by lia. now rewrite last_snoc.
Qed.

Lemma recorded_duration_witness :
  duration_minutes
    <$> last (history (data_manager (_complete_workout readings_A app_missing)))
  = Some 1.
Proof.
  destruct (recorded_duration readings_A app_missing
              (strptime_ymd (ymd2ord 2024 3 1)) eq_refl)
    as (_ & Hsmall & _).
  apply Hsmall. vm_compute. split; [discriminate | reflexivity].
Defined.

(** X18. [_skip_rest] called after a set has been presented and before
    its rest has begun presents the same set again: the set is shown
    twice, its calories are credited twice and two rests are asked for,
    the set number, the index and the document being as they were. *)
Theorem skip_before_rest (r : Readings) (a : App) (w : Workout)
    (st : ExerciseStep) :
  current_workout a = Some w ->
  exercises w !! current_exercise_index a = Some st ->
  current_set a <= sets st ->
  let shown :=
    ShowSet (icon_of (data_manager a) (name st)) (name st) (current_set a)
            (sets st) (reps st) in
  let calories :=
    (calories_of (data_manager a) (name st) * Z2Qc (reps st))%Qc in
  exists a1 a2 : App,
    _next_exercise r a = Some a1 /\
    _skip_rest r a1 = Some a2 /\
    status_log a2 = status_log a ++ [shown; shown] /\
    burned a2 = (burned a + calories + calories)%Qc /\
    after_queue a2
    = after_queue a ++ [StartRest (rest st); StartRest (rest st)] /\
    current_set a2 = current_set a /\
    current_exercise_index a2 = current_exercise_index a /\
    data_manager a2 = data_manager a.
Proof.
  intros Hw Hst Hk. cbv zeta.
  assert (Hnot : (sets st <? current_set a) = false)
    by (apply Z.ltb_ge; exact Hk).
  assert (Hpresent : forall a0 : App,
            current_workout a0 = Some w ->
            current_exercise_index a0 = current_exercise_index a ->
            current_set a0 = current_set a ->
            _next_exercise r a0 = Some (present st a0)).
  { intros a0 Hw0 Hi0 Hk0. unfold _next_exercise. rewrite Hw0.
    destruct (length (exercises w) - current_exercise_index a0)%nat;
      cbn [next_exercise_within]; now rewrite Hw0, Hi0, Hst, Hk0, Hnot. }
  exists (present st a).
  exists (present st (with_timer (stop (timer (present st a)))
                        (threads (present st a)) (present st a))).
  split; [now apply Hpresent|].
  split; [unfold _skip_rest; now apply Hpresent|].
  cbn. rewrite <- !app_assoc. now repeat split.
Qed.

Lemma skip_before_rest_witness :
  exists a1 a2 : App,
    _next_exercise readings_A app_missing = Some a1 /\
    _skip_rest readings_A a1 = Some a2 /\
    status_log a2
    = [ShowSet default_icon "A" 1 2 10; ShowSet default_icon "A" 1 2 10].
Proof.
  destruct (skip_before_rest readings_A app_missing
              (template_A "two sets of A") step_A)
    as (a1 & a2 & H1 & H2 & Hlog & _);
    [reflexivity | reflexivity | cbn; lia |].
  exists a1, a2. split; [exact H1|]. split; [exact H2 | exact Hlog].
Defined.

(** X19. [_pause_workout] is a toggle: it inverts the paused flag of the
    timer and leaves the running flag, the seconds remaining and the
    rest of the application as they are, so that two calls give the
    application back. *)
Theorem pause_toggles (a : App) :
  _pause_workout (_pause_workout a) = a /\
  paused (timer (_pause_workout a)) = negb (paused (timer a)) /\
  running (timer (_pause_workout a)) = running (timer a) /\
  seconds_remaining (timer (_pause_workout a))
  = seconds_remaining (timer a) /\
  with_timer (timer a) (threads a) (_pause_workout a) = a.
Proof.
  destruct a as [d [run pau s] ps cw idx set start cal var q log].
  destruct pau; now repeat split.
Qed.

(** X16. [_start_workout] with no workout selected changes nothing;
    with a selected name that is not among the workouts it fails (the
    [KeyError]); with a workout whose first step has a set it starts at
    index 0 and set 1, stores the reading of the clock, resets the
    calories and presents the first set of the first step. *)
Theorem start_workout_selection (r : Readings) (a : App) :
  (workout_var a = "" -> _start_workout r a = Some a) /\
  (workout_var a <> "" ->
   data_workouts (data_manager a) !! workout_var a = None ->
   _start_workout r a = None) /\
  (forall (w : Workout) (st : ExerciseStep),
     workout_var a <> "" ->
     data_workouts (data_manager a) !! workout_var a = Some w ->
     exercises w !! 0%nat = Some st ->
     1 <= sets st ->
     exists a' : App,
       _start_workout r a = Some a' /\
       current_workout a' = Some w /\
       current_exercise_index a' = 0%nat /\
       current_set a' = 1 /\
       workout_start_time a' = Some (at_start r) /\
       burned a'
       = (0 + calories_of (data_manager a) (name st) * Z2Qc (reps st))%Qc /\
       status_log a'
       = status_log a
           ++ [ShowSet (icon_of (data_manager a) (name st)) (name st) 1
                       (sets st) (reps st)] /\
       after_queue a' = after_queue a ++ [StartRest (rest st)] /\
       data_manager a' = data_manager a).
Proof.
  unfold _start_workout. split; [|split].
  - intros ->. reflexivity.
  - intros Hname Hmissing. apply String.eqb_neq in Hname.
    now rewrite Hname, Hmissing.
  - intros w st Hname Hlookup Hst Hsets. apply String.eqb_neq in Hname.
    rewrite Hname, Hlookup. eexists. split.
    + unfold _next_exercise. cbn [current_workout current_exercise_index].
      apply Z.ltb_ge in Hsets.
      destruct (length (exercises w) - 0)%nat;
        cbn [next_exercise_within current_workout current_exercise_index
             current_set]; rewrite Hst, Hsets; reflexivity.
    + cbn. now repeat split.
Qed.

End Buttons.

(** ** White space in the exercise form *)

Section Padding.
Import PyStr Characters FitnessApp.

Lemma lstrip_suffix (l : list (list ascii)) : exists pre, l = pre ++ lstrip l.
Proof.
  induction l as [|ch l [pre IH]]; [now exists []|].
  cbn [lstrip]. destruct (is_space ch).
  - exists (ch :: pre). cbn. now rewrite <- IH.
  - now exists [].
Qed.

(** What is left does not begin with white space. *)
Lemma lstrip_head (l : list (list ascii)) :
  match lstrip l with
  | ch :: _ => is_space ch = false
  | [] => True
  end.
Proof.
  induction l as [|ch l IH]; [exact I|].
  cbn [lstrip]. destruct (is_space ch) eqn:Hc; [exact IH | exact Hc].
Qed.

Lemma lstrip_clean (l : list (list ascii)) :
  match l with
  | ch :: _ => is_space ch = false
  | [] => True
  end ->
  lstrip l = l.
Proof. destruct l as [|ch l]; [reflexivity|]. cbn. now intros ->. Qed.

(** The characters left by [strip]: a stretch of the characters of the
    text that neither begins nor ends with white space. *)
Lemma strip_chars_stretch (l : list (list ascii)) :
  exists pre post : list (list ascii),
    l = pre ++ strip_chars l ++ post /\
    match strip_chars l with
    | ch :: _ => is_space ch = false
    | [] => True
    end /\
    match rev (strip_chars l) with
    | ch :: _ => is_space ch = false
    | [] => True
    end.
Proof.
  unfold strip_chars.
  set (A := lstrip l). set (B := lstrip (rev A)).
  assert (HA : match A with ch :: _ => is_space ch = false | [] => True end)
    by apply lstrip_head.
  assert (HB : match B with ch :: _ => is_space ch = false | [] => True end)
    by apply lstrip_head.
  destruct (lstrip_suffix l) as [pre Hpre]. fold A in Hpre.
  destruct (lstrip_suffix (rev A)) as [post Hpost]. fold B in Hpost.
  assert (Hrev : A = rev B ++ rev post).
  { rewrite <- rev_app_distr, <- Hpost. now rewrite rev_involutive. }
  exists pre, (rev post). split; [now rewrite <- Hrev|].
  split; [|now rewrite rev_involutive].
  destruct (rev B) as [|ch rest]; [exact I|].
  rewrite Hrev in HA. exact HA.
Qed.

Lemma strip_chars_idempotent (l : list (list ascii)) :
  strip_chars (strip_chars l) = strip_chars l.
Proof.
  destruct (strip_chars_stretch l) as (_ & _ & _ & Hhead & Hlast).
  set (G := strip_chars l) in *. unfold strip_chars at 1.
  rewrite (lstrip_clean G Hhead), (lstrip_clean (rev G) Hlast).
  apply rev_involutive.
Qed.

Lemma chars_first (s : list ascii) :
  s = [] \/
  exists (ch rest : list ascii),
    ch <> [] /\ s = ch ++ rest /\ chars s = ch :: chars rest /\
    (rest <> [] -> whole ch).
Proof.
  destruct s as [|b1 s1]; [now left|]. right. cbn [chars].
  destruct (byte b1 <? 192)%N eqn:H1.
  { exists [b1], s1. repeat split; [discriminate|].
    intros _ rest. cbn [app chars]. now rewrite H1. }
  destruct s1 as [|b2 s2].
  { exists [b1], []. repeat split; [discriminate | congruence]. }
  destruct (byte b1 <? 224)%N eqn:H2.
  { exists [b1; b2], s2. repeat split; [discriminate|].
    intros _ rest. cbn [app chars]. now rewrite H1, H2. }
  destruct s2 as [|b3 s3].
  { exists [b1; b2], []. repeat split; [discriminate | congruence]. }
  destruct (byte b1 <? 240)%N eqn:H3.
  { exists [b1; b2; b3], s3. repeat split; [discriminate|].
    intros _ rest. cbn [app chars]. now rewrite H1, H2, H3. }
  destruct s3 as [|b4 s4].
  { exists [b1; b2; b3], []. repeat split; [discriminate | congruence]. }
  exists [b1; b2; b3; b4], s4. repeat split; [discriminate|].
  intros _ rest. cbn [app chars]. now rewrite H1, H2, H3.
Qed.

(** The characters of a text put together are the text. *)
Lemma concat_chars (n : nat) : forall s : list ascii,
  (length s <= n)%nat -> concat (chars s) = s.
Proof.
  induction n as [|n IH]; intros s Hn.
  - destruct s; [reflexivity | cbn in Hn; lia].
  - destruct (chars_first s) as [-> | (ch & rest & Hch & Hs & Hcs & _)];
      [reflexivity|].
    rewrite Hcs. cbn [concat]. rewrite IH; [now rewrite <- Hs|].
    rewrite Hs, length_app in Hn. destruct ch; [congruence|].
    cbn [length] in Hn. lia.
Qed.

(** Every character of a text but the last has all its bytes. *)
Lemma chars_whole (l : list (list ascii)) : forall (s : list ascii)
    (ch : list ascii),
  chars s = l ++ [ch] -> Forall whole l.
Proof.
  induction l as [|c l IH]; intros s ch Hs; [constructor|].
  destruct (chars_first s) as [-> | (c0 & rest & _ & _ & Hcs & Hwhole)];
    [discriminate Hs|].
  rewrite Hcs in Hs. cbn [app] in Hs. injection Hs as -> Hrest.
  constructor.
  - apply Hwhole. intros ->. destruct l; discriminate Hrest.
  - apply (IH rest ch Hrest).
Qed.

Lemma chars_of_whole (l : list (list ascii)) (rest : list ascii) :
  Forall whole l -> chars (concat l ++ rest) = l ++ chars rest.
Proof.
  induction 1 as [|ch l Hch _ IH]; [reflexivity|].
  cbn [concat app]. rewrite <- app_assoc, Hch, IH. reflexivity.
Qed.

(** A stretch of the characters of a text is the characters of the text
    it makes. *)
Lemma chars_stretch (s : list ascii) (pre l post : list (list ascii)) :
  chars s = pre ++ l ++ post -> chars (concat l) = l.
Proof.
  intros Hs.
  induction l as [|c0 l0 _] using rev_ind; [reflexivity|].
  induction post as [|p post0 _] using rev_ind.
  - rewrite app_nil_r, app_assoc in Hs.
    pose proof (chars_whole _ _ _ Hs) as Hwhole.
    apply Forall_app in Hwhole as [Hpre Hl].
    pose proof (concat_chars (length s) s (le_n _)) as Hcat.
    rewrite Hs, !concat_app in Hcat. cbn [concat] in Hcat.
    rewrite app_nil_r in Hcat.
    assert (Hlast : chars c0 = [c0]).
    { rewrite <- Hcat, <- concat_app in Hs.
      rewrite chars_of_whole in Hs by (apply Forall_app; now split).
      now apply app_inv_head in Hs. }
    rewrite concat_app. cbn [concat]. rewrite app_nil_r.
    now rewrite chars_of_whole, Hlast.
  - rewrite !app_assoc in Hs.
    pose proof (chars_whole _ _ _ Hs) as Hwhole.
    rewrite <- !app_assoc in Hwhole.
    apply Forall_app in Hwhole as [_ Hwhole].
    rewrite app_assoc in Hwhole.
    apply Forall_app in Hwhole as [Hl _].
    rewrite <- (app_nil_r (concat (l0 ++ [c0]))).
    rewrite chars_of_whole by exact Hl. apply app_nil_r.
Qed.

Lemma chars_strip (s : string) :
  chars (list_ascii_of_string (strip s))
  = strip_chars (chars (list_ascii_of_string s)).
Proof.
  unfold strip. rewrite list_ascii_of_string_of_list_ascii.
  destruct (strip_chars_stretch (chars (list_ascii_of_string s)))
    as (pre & post & Hs & _).
  exact (chars_stretch _ pre _ post Hs).
Qed.

Lemma strip_idempotent (s : string) : strip (strip s) = strip s.
Proof.
  unfold strip at 1. rewrite chars_strip, strip_chars_idempotent.
  reflexivity.
Qed.

(** X22. The white space around the name and the category of the
    exercise form does not count: [_add_exercise] on the stripped name
    and category does what it does on the texts as entered; stripping a
    stripped text changes nothing, and a stripped text neither begins
    nor ends with a white space character.  The calories text is read by
    [float], for which the separators 28 to 31 are not white space
    though [strip] removes them: the text of the character 28 and the
    digit 2 is refused as entered and read as 2 once stripped. *)
Theorem add_exercise_padding (name_entry category_entry calories_entry
    : string) (d : Data) :
  _add_exercise (strip name_entry) (strip category_entry) calories_entry d
  = _add_exercise name_entry category_entry calories_entry d /\
  strip (strip name_entry) = strip name_entry /\
  (forall ch : list ascii,
     head (chars (list_ascii_of_string (strip name_entry))) = Some ch \/
     last (chars (list_ascii_of_string (strip name_entry))) = Some ch ->
     is_space ch = false) /\
  float (String (ascii_of_N 28) "2") = None /\
  float (strip (String (ascii_of_N 28) "2")) = Some (Finite (Z2Qc 2)).
Proof.
  split; [|split; [|split]].
  - unfold _add_exercise. now rewrite !strip_idempotent.
  - apply strip_idempotent.
  - intros ch Hch. rewrite chars_strip in Hch.
    destruct (strip_chars_stretch (chars (list_ascii_of_string name_entry)))
      as (_ & _ & _ & Hhead & Hlast).
    set (G := strip_chars (chars (list_ascii_of_string name_entry))) in *.
    destruct Hch as [Hch | Hch].
    + destruct G as [|c G']; [discriminate Hch|].
      cbn in Hch. now injection Hch as <-.
    + rewrite <- (rev_involutive G) in Hch.
      destruct (rev G) as [|c R]; [discriminate Hch|].
      cbn [rev] in Hch. rewrite last_snoc in Hch. now injection Hch as <-.
  - split; vm_compute; reflexivity.
Qed.

End Padding.
